(** * LogiTrack: the inventory allocation engine ([src/backend/optimizer.py])

    A shallow embedding of [InventoryOptimizer]: the Haversine distance
    ([calculate_distance]), the greedy order-by-order allocation ([optimize])
    and the display summary ([get_optimization_summary]), followed by the
    properties of the engine.

    Conventions of the embedding.
    - Python floats are IEEE binary64 numbers: Rocq's primitive [float].
    - Integer columns of a DataFrame are [int64]: a [Z] with the wrap-around
      of the subtraction written out ([wrap64]).
    - A Python call that may raise returns a [result]; [try]/[except] is
      [try_except].
    - DataFrames that are mutated live in a store ([heap]) and are passed by
      reference ([loc]), so that copying and aliasing are visible.
    - What Python and the C library provide (the float literal parser, [sin],
      [cos], [atan2], [pow], [round]) is a parameter of the development. *)

From Stdlib Require Import ZArith Floats List Bool Lia Sorted Permutation.
From stdpp Require Import gmap strings list.

Local Open Scope Z_scope.

(** ** Exceptions and results *)

Inductive exn : Type :=
| AttributeError (msg : string)
| IndexError (msg : string)
| TypeError (msg : string)
| ValueError (msg : string)
| OverflowError (msg : string).

(** [str(e)] *)
Definition str (e : exn) : string :=
  match e with
  | AttributeError m | IndexError m | TypeError m | ValueError m
  | OverflowError m => m
  end.

Inductive result (A : Type) : Type :=
| Ok (a : A)
| Raise (e : exn).
Arguments Ok {A} a.
Arguments Raise {A} e.

Global Instance result_ret : MRet result := fun A a => Ok a.
Global Instance result_bind : MBind result := fun A B f m =>
  match m with
  | Ok a => f a
  | Raise e => Raise e
  end.

(** [try: body except Exception as e: handler e] *)
Definition try_except {A} (body : result A) (handler : exn -> result A) : result A :=
  match body with
  | Ok a => Ok a
  | Raise e => handler e
  end.

(** ** Python values held by a cell of a DataFrame or a slot of a dict *)

Inductive pyval : Type :=
| PyNone
| PyInt (z : Z)
| PyFloat (f : float)
| PyStr (s : string)
| PyObj.  (* a container (list, dict): not a number, not a string *)

(** The integer [z] as a double, rounded to nearest even. *)
Definition float_of_Z (z : Z) : float :=
  SF2Prim (binary_normalize prec emax z 0 false).

(** [float(int)] raises when the integer exceeds the range of a double. *)
Definition float_of_int (z : Z) : result float :=
  let f := float_of_Z z in
  if PrimFloat.is_infinity f
  then Raise (OverflowError "int too large to convert to float")
  else Ok f.

(** What the interpreter and the C library provide. *)
Class PyRuntime : Type := {
  (** Python's parser of float literals, [float(str)]: [None] when the
      string is not a float literal. *)
  parse_float : string -> option float;
  (** The C library behind Python's [math] module and float power. *)
  libm_sin : float -> float;
  libm_cos : float -> float;
  libm_atan2 : float -> float -> float;
  libm_pow : float -> float -> float;
  (** [float.__round__(x, ndigits)] *)
  float_round : float -> Z -> float
}.

Section Builtins.

Context {RT : PyRuntime}.

(** [float(v)] *)
Definition py_float (v : pyval) : result float :=
  match v with
  | PyFloat f => Ok f
  | PyInt z => float_of_int z
  | PyStr s =>
      match parse_float s with
      | Some f => Ok f
      | None => Raise (ValueError ("could not convert string to float: " +:+ s))
      end
  | PyNone | PyObj =>
      Raise (TypeError "float() argument must be a string or a real number")
  end.

(** [math.radians(x)]: [x * (pi / 180)]. *)
Definition degToRad : float := (0x1.921fb54442d18p+1 / 180)%float.
Definition radians (x : float) : float := (x * degToRad)%float.

(** CPython's wrapper around a one-argument libm function that cannot
    overflow ([math_1] with [can_overflow = 0]): a NaN out of a number, or
    an infinity out of a finite number, is a domain error. *)
Definition math_1 (func : float -> float) (x : float) : result float :=
  let r := func x in
  if PrimFloat.is_nan r && negb (PrimFloat.is_nan x)
  then Raise (ValueError "math domain error")
  else if PrimFloat.is_infinity r && PrimFloat.is_finite x
  then Raise (ValueError "math domain error")
  else Ok r.

Definition sin (x : float) : result float := math_1 libm_sin x.
Definition cos (x : float) : result float := math_1 libm_cos x.
Definition sqrt (x : float) : result float := math_1 PrimFloat.sqrt x.

(** [math.atan2(y, x)] ([math_2]). *)
Definition atan2 (y x : float) : result float :=
  let r := libm_atan2 y x in
  if PrimFloat.is_nan r && negb (PrimFloat.is_nan y) && negb (PrimFloat.is_nan x)
  then Raise (ValueError "math domain error")
  else if PrimFloat.is_infinity r && PrimFloat.is_finite y && PrimFloat.is_finite x
  then Raise (OverflowError "math range error")
  else Ok r.

(** [x ** 2] on a float ([float_pow] with exponent [2.0]): libm's [pow],
    an overflow raising [OverflowError]. *)
Definition pow2 (x : float) : result float :=
  let r := libm_pow x 2 in
  if PrimFloat.is_infinity r && PrimFloat.is_finite x
  then Raise (OverflowError "(34, 'Numerical result out of range')")
  else Ok r.

(** [a + b] on numbers; anything else is a [TypeError]. *)
Definition py_add (a b : pyval) : result pyval :=
  match a, b with
  | PyInt x, PyInt y => Ok (PyInt (x + y))
  | PyInt x, PyFloat y => f ← float_of_int x; Ok (PyFloat (f + y))
  | PyFloat x, PyInt y => f ← float_of_int y; Ok (PyFloat (x + f))
  | PyFloat x, PyFloat y => Ok (PyFloat (x + y))
  | _, _ => Raise (TypeError "unsupported operand type(s) for +")
  end.

(** [round(v, ndigits)]: an int is returned as it is (for [ndigits >= 0]),
    a non-finite float too; other values have no [__round__]. *)
Definition py_round (v : pyval) (ndigits : Z) : result pyval :=
  match v with
  | PyInt z => Ok (PyInt z)
  | PyFloat f =>
      if PrimFloat.is_finite f then Ok (PyFloat (float_round f ndigits))
      else Ok (PyFloat f)
  | PyNone | PyStr _ | PyObj =>
      Raise (TypeError "type doesn't define __round__ method")
  end.

End Builtins.

(** ** The data model: the rows of the three DataFrames *)

(** int64, the dtype of an integer column. *)
Definition int64_min : Z := - 2 ^ 63.
Definition int64_max : Z := 2 ^ 63 - 1.
Definition in_int64 (z : Z) : Prop := int64_min <= z <= int64_max.
Global Instance in_int64_dec z : Decision (in_int64 z).
Proof. unfold in_int64. apply _. Defined.
Definition wrap64 (z : Z) : Z := (z + 2 ^ 63) mod 2 ^ 64 - 2 ^ 63.

(** A row of [warehouses]. The coordinates are cells that may hold anything
    (a number, text, nothing); [storage_cost] is a numeric column, held as
    the double it multiplies as. *)
Record Warehouse : Type := {
  warehouse_id : string;
  latitude : pyval;
  longitude : pyval;
  storage_cost : float
}.

(** A row of [orders]. *)
Record Order : Type := {
  order_id : string;
  product_id : string;
  quantity : Z;
  status : string;
  delivery_latitude : pyval;
  delivery_longitude : pyval
}.

(** A row of [inventory]: the stock of one product in one warehouse. *)
Record StockRecord : Type := {
  inv_warehouse_id : string;
  inv_product_id : string;
  current_stock : Z
}.

(** An entry of [results['allocation_plan'][warehouse_id]]. *)
Record AllocationEntry : Type := {
  ae_order_id : string;
  ae_quantity : Z;
  ae_cost : float;
  ae_distance : float
}.

(** An entry of [results['unfulfilled_orders']]. *)
Record UnfulfilledEntry : Type := {
  uo_order_id : string;
  uo_quantity : Z;
  reason : string
}.

(** The [results] dict of [optimize]. *)
Record Results : Type := {
  allocation_plan : gmap string (list AllocationEntry);
  warehouse_utilization : gmap string pyval;
  unfulfilled_orders : list UnfulfilledEntry;
  total_cost : pyval;
  solving_time : pyval;
  r_status : string
}.

(** [best_allocation] *)
Record BestAllocation : Type := {
  ba_warehouse_id : option string;
  ba_cost : float;
  ba_distance : float
}.

(** The optimizer object. *)
Record InventoryOptimizer : Type := {
  solver_time : Z;
  current_datetime : string;
  current_user : string
}.

(** [InventoryOptimizer.__init__] *)
Definition init : InventoryOptimizer :=
  {| solver_time := 20;
     current_datetime := "2025-03-24 21:07:26";
     current_user := "tanishpoddar" |}.

(** [self.optimizer.solver_time = solver_time] ([app.py], [run]) *)
Definition set_solver_time (self : InventoryOptimizer) (t : Z) : InventoryOptimizer :=
  {| solver_time := t;
     current_datetime := current_datetime self;
     current_user := current_user self |}.

Section Distance.

Context {RT : PyRuntime}.

(** The body of the [try] of [calculate_distance]. *)
Definition haversine (warehouse_row : Warehouse) (order_row : Order) : result float :=
  let lat1 := latitude warehouse_row in
  let lon1 := longitude warehouse_row in
  let lat2 := delivery_latitude order_row in
  let lon2 := delivery_longitude order_row in
  f1 ← py_float lat1; g1 ← py_float lon1;
  let lat1 := radians f1 in let lon1 := radians g1 in
  f2 ← py_float lat2; g2 ← py_float lon2;
  let lat2 := radians f2 in let lon2 := radians g2 in
  let dlat := (lat2 - lat1)%float in
  let dlon := (lon2 - lon1)%float in
  s1 ← sin (dlat / 2); p1 ← pow2 s1;
  c1 ← cos lat1; c2 ← cos lat2;
  s2 ← sin (dlon / 2); p2 ← pow2 s2;
  let a := (p1 + c1 * c2 * p2)%float in
  q1 ← sqrt a; q2 ← sqrt (1 - a);
  t ← atan2 q1 q2;
  let c := (2 * t)%float in
  let r := 6371%float in
  Ok (c * r)%float.

(** [calculate_distance]: any exception of the body is logged and answered
    by [float('inf')]. *)
Definition calculate_distance (warehouse_row : Warehouse) (order_row : Order)
  : result float :=
  try_except (haversine warehouse_row order_row)
             (fun e => Ok PrimFloat.infinity).

End Distance.

(** ** The store of objects

    The stock DataFrame is the one object the engine writes to; the summary
    reads a dict. An object is a location of the store; a variable holds a
    reference to it. *)

Inductive obj : Type :=
| DataFrame (rows : list StockRecord)
| Dict (d : gmap string pyval).

Definition loc : Type := positive.
Abbreviation heap := (gmap loc obj).

(** Computations that read and write the store and may raise. A raise keeps
    the writes made before it. *)
Definition M (A : Type) : Type := heap -> heap * result A.

Global Instance M_ret : MRet M := fun A a h => (h, Ok a).
Global Instance M_bind : MBind M := fun A B f m h =>
  match m h with
  | (h', Ok a) => f a h'
  | (h', Raise e) => (h', Raise e)
  end.

Definition lift {A} (r : result A) : M A := fun h => (h, r).

Definition try_except_M {A} (body : M A) (handler : exn -> M A) : M A := fun h =>
  match body h with
  | (h', Ok a) => (h', Ok a)
  | (h', Raise e) => handler e h'
  end.

Definition no_attribute (name : string) : exn :=
  AttributeError ("object has no attribute '" +:+ name +:+ "'").

(** [df.copy()]: a new DataFrame object holding the same rows. *)
Definition df_copy (df : loc) : M loc := fun h =>
  match h !! df with
  | Some (DataFrame rows) =>
      let l := fresh (dom h) in (<[l := DataFrame rows]> h, Ok l)
  | _ => (h, Raise (no_attribute "copy"))
  end.

(** [df[mask]]: the rows selected by a boolean mask, in row order. *)
Definition df_select (df : loc) (mask : StockRecord -> Prop)
    `{!forall s, Decision (mask s)} : M (list StockRecord) := fun h =>
  match h !! df with
  | Some (DataFrame rows) => (h, Ok (filter mask rows))
  | _ => (h, Raise (TypeError "object is not subscriptable"))
  end.

Definition sub_current_stock (q : Z) (s : StockRecord) : StockRecord :=
  {| inv_warehouse_id := inv_warehouse_id s;
     inv_product_id := inv_product_id s;
     current_stock := wrap64 (current_stock s - q) |}.

(** [df.loc[mask, 'current_stock'] -= q]: every row selected by the mask is
    decremented in place, with int64 arithmetic. *)
Definition df_isub_current_stock (df : loc) (mask : StockRecord -> Prop)
    `{!forall s, Decision (mask s)} (q : Z) : M unit := fun h =>
  match h !! df with
  | Some (DataFrame rows) =>
      (<[df := DataFrame
                 ((fun s => if decide (mask s) then sub_current_stock q s else s)
                    <$> rows)]> h,
       Ok tt)
  | _ => (h, Raise (no_attribute "loc"))
  end.

(** The columns of the stock table. *)
Definition stock_columns : list string :=
  ["warehouse_id"; "product_id"; "current_stock"].

(** [d.get(key, default)]. A dict yields the value under the key or the
    default; a DataFrame has a [get] too, which yields the column of that
    name, a Series, or the default when it has no such column. A location
    that holds no object stands for a value without a [get] attribute
    ([None], a number, a list). *)
Definition dict_get (d : loc) (key : string) (dflt : pyval) : M pyval := fun h =>
  match h !! d with
  | Some (Dict m) => (h, Ok (default dflt (m !! key)))
  | Some (DataFrame _) =>
      (h, Ok (if decide (key ∈ stock_columns) then PyObj else dflt))
  | None => (h, Raise (no_attribute "get"))
  end.

(** ** [orders.sort_values(by=['status', 'quantity'], ascending=[True, False])]

    pandas sorts on several keys with a stable lexicographic sort; strings
    compare by code point. *)

Definition order_before (a b : Order) : bool :=
  String.ltb (status a) (status b)
  || (String.eqb (status a) (status b) && (quantity b <=? quantity a)).

Fixpoint insert_order (o : Order) (l : list Order) : list Order :=
  match l with
  | [] => [o]
  | x :: l' => if order_before o x then o :: l else x :: insert_order o l'
  end.

Definition sort_values (orders : list Order) : list Order :=
  foldr insert_order [] orders.

(** ** The allocation engine *)

(** The double written [0.1]. *)
Definition one_tenth : float := 0x1.999999999999ap-4%float.

Section Engine.

Context {RT : PyRuntime}.

(** [warehouses[warehouses['warehouse_id'] == warehouse_id].iloc[0]] *)
Definition lookup_warehouse (warehouses : list Warehouse) (wid : string)
  : result Warehouse :=
  match filter (fun w => warehouse_id w = wid) warehouses with
  | w :: _ => Ok w
  | [] => Raise (IndexError "single positional indexer is out-of-bounds")
  end.

(** The cost of serving [order] from [warehouse] (the three lines of the
    revised cost calculation). *)
Definition allocation_cost (warehouse : Warehouse) (order : Order) : result float :=
  d ← calculate_distance warehouse order;
  let transport_cost := (d * 10)%float in
  let storage_cost_penalty := (storage_cost warehouse * one_tenth)%float in
  Ok (transport_cost + storage_cost_penalty)%float.

(** The body of the loop over [possible_inventory]. *)
Definition consider (warehouses : list Warehouse) (order : Order)
    (best_allocation : BestAllocation) (stock_info : StockRecord)
  : result BestAllocation :=
  if decide (quantity order <= current_stock stock_info) then
    let wid := inv_warehouse_id stock_info in
    warehouse ← lookup_warehouse warehouses wid;
    cost ← allocation_cost warehouse order;
    if (cost <? ba_cost best_allocation)%float then
      d ← calculate_distance warehouse order;
      Ok {| ba_warehouse_id := Some wid; ba_cost := cost; ba_distance := d |}
    else Ok best_allocation
  else Ok best_allocation.

Fixpoint for_rows (warehouses : list Warehouse) (order : Order)
    (best_allocation : BestAllocation) (rows : list StockRecord)
  : result BestAllocation :=
  match rows with
  | [] => Ok best_allocation
  | stock_info :: rows' =>
      best ← consider warehouses order best_allocation stock_info;
      for_rows warehouses order best rows'
  end.

Definition no_allocation : BestAllocation :=
  {| ba_warehouse_id := None;
     ba_cost := PrimFloat.infinity;
     ba_distance := PrimFloat.infinity |}.

Definition insufficient_stock (order : Order) : UnfulfilledEntry :=
  {| uo_order_id := order_id order;
     uo_quantity := quantity order;
     reason := "Insufficient stock for product " +:+ product_id order |}.

(** [results['allocation_plan'][warehouse_id].append(entry)], the list
    created when the warehouse has none yet. *)
Definition plan_append (plan : gmap string (list AllocationEntry))
    (wid : string) (e : AllocationEntry) : gmap string (list AllocationEntry) :=
  <[wid := default [] (plan !! wid) ++ [e]]> plan.

(** The allocation branch's writes to [results]: the entry appended under
    the warehouse, the cost added to the running total. *)
Definition add_allocation (results : Results) (wid : string) (order : Order)
    (best_allocation : BestAllocation) (total : pyval) : Results :=
  {| allocation_plan :=
       plan_append (allocation_plan results) wid
         {| ae_order_id := order_id order;
            ae_quantity := quantity order;
            ae_cost := ba_cost best_allocation;
            ae_distance := ba_distance best_allocation |};
     warehouse_utilization := warehouse_utilization results;
     unfulfilled_orders := unfulfilled_orders results;
     total_cost := total;
     solving_time := solving_time results;
     r_status := r_status results |}.

(** The other branch's write: [results['unfulfilled_orders'].append(...)]. *)
Definition add_unfulfilled (results : Results) (order : Order) : Results :=
  {| allocation_plan := allocation_plan results;
     warehouse_utilization := warehouse_utilization results;
     unfulfilled_orders :=
       unfulfilled_orders results ++ [insufficient_stock order];
     total_cost := total_cost results;
     solving_time := solving_time results;
     r_status := r_status results |}.

(** The body of the loop over the sorted orders. *)
Definition allocate (warehouses : list Warehouse) (inventory_levels : loc)
    (results : Results) (order : Order) : M Results :=
  let order_product_id := product_id order in
  let order_quantity := quantity order in
  possible_inventory ←
    df_select inventory_levels (fun s => inv_product_id s = order_product_id);
  best_allocation ←
    lift (for_rows warehouses order no_allocation possible_inventory);
  match ba_warehouse_id best_allocation with
  | Some wid =>
      _ ← df_isub_current_stock inventory_levels
            (fun s => inv_warehouse_id s = wid /\ inv_product_id s = order_product_id)
            order_quantity;
      total ← lift (py_add (total_cost results) (PyFloat (ba_cost best_allocation)));
      mret (add_allocation results wid order best_allocation total)
  | None => mret (add_unfulfilled results order)
  end.

Fixpoint for_orders (warehouses : list Warehouse) (inventory_levels : loc)
    (results : Results) (orders : list Order) : M Results :=
  match orders with
  | [] => mret results
  | order :: orders' =>
      results' ← allocate warehouses inventory_levels results order;
      for_orders warehouses inventory_levels results' orders'
  end.

Definition empty_results : Results :=
  {| allocation_plan := ∅;
     warehouse_utilization := ∅;
     unfulfilled_orders := [];
     total_cost := PyInt 0;
     solving_time := PyInt 0;
     r_status := "In Progress" |}.

(** The last two writes: [results['solving_time']] and
    [results['status']]. *)
Definition completed (results : Results) (elapsed : float) : Results :=
  {| allocation_plan := allocation_plan results;
     warehouse_utilization := warehouse_utilization results;
     unfulfilled_orders := unfulfilled_orders results;
     total_cost := total_cost results;
     solving_time := PyFloat elapsed;
     r_status := "Completed" |}.

(** [optimize]. The two readings of [time.time()] are inputs. Any exception
    of the body is logged and raised again as a [ValueError]. *)
Definition optimize (self : InventoryOptimizer)
    (optimization_start_time end_time : float)
    (warehouses : list Warehouse) (orders : list Order) (inventory : loc)
  : M Results :=
  try_except_M
    (let results := empty_results in
     inventory_levels ← df_copy inventory;
     let orders := sort_values orders in
     results ← for_orders warehouses inventory_levels results orders;
     mret (completed results (end_time - optimization_start_time)))
    (fun e => lift (Raise (ValueError ("Optimization error: " +:+ str e)))).

End Engine.

(** ** The summary *)

Section Summary.

Context {RT : PyRuntime}.

(** The body of the [try] of [get_optimization_summary]. *)
Definition summary_body (results : loc) : M (gmap string pyval) :=
  total ← dict_get results "total_cost" (PyInt 0);
  total ← lift (py_round total 2);
  time ← dict_get results "solving_time" (PyInt 0);
  time ← lift (py_round time 2);
  st ← dict_get results "status" (PyStr "Unknown");
  ts ← dict_get results "optimization_timestamp" PyNone;
  mret (<["total_cost" := total]>
        (<["solving_time" := time]>
         (<["status" := st]>
          (<["timestamp" := ts]> ∅)))).

(** [get_optimization_summary]: any exception is logged and answered by the
    empty dict. *)
Definition get_optimization_summary (self : InventoryOptimizer) (results : loc)
  : M (gmap string pyval) :=
  try_except_M (summary_body results) (fun e => mret ∅).

End Summary.

(** ** Reading the plan *)

(** Every entry of the allocation plan, warehouse by warehouse. *)
Definition plan_entries (plan : gmap string (list AllocationEntry))
  : list AllocationEntry :=
  concat (snd <$> map_to_list plan).

(** The entries filed under one warehouse. *)
Definition entries_of (plan : gmap string (list AllocationEntry)) (wid : string)
  : list AllocationEntry :=
  default [] (plan !! wid).

(** A stock record is a candidate for an order when it holds the order's
    product in a quantity that covers the order. *)
Definition feasible (order : Order) (s : StockRecord) : Prop :=
  inv_product_id s = product_id order /\ quantity order <= current_stock s.

Global Instance feasible_dec order s : Decision (feasible order s).
Proof. unfold feasible. apply _. Defined.

Definition candidates (order : Order) (rows : list StockRecord) : list StockRecord :=
  filter (feasible order) rows.

(** The warehouse of a stock record is on a row of [warehouses]. *)
Definition known (warehouses : list Warehouse) (s : StockRecord) : Prop :=
  exists w, w ∈ warehouses /\ warehouse_id w = inv_warehouse_id s.

(** ** A runtime to evaluate the engine at the origin

    [sin 0 = 0], [cos 0 = 1], [atan2 0 1 = 0] and [0 ** 2 = 0] hold of any C
    library; this runtime agrees with it there, which is all that the
    evaluations below exercise. No string is a float literal, and rounding
    leaves a double that has at most two decimals as it is. *)
Definition origin_runtime : PyRuntime :=
  {| parse_float := fun _ => None;
     libm_sin := fun x => x;
     libm_cos := fun _ => 1%float;
     libm_atan2 := fun y x => (y / x)%float;
     libm_pow := fun x _ => (x * x)%float;
     float_round := fun x _ => x |}.

Module Fixtures.

Definition W1 : Warehouse :=
  {| warehouse_id := "W1"; latitude := PyFloat 0; longitude := PyFloat 0;
     storage_cost := 100 |}.

Definition W2 : Warehouse :=
  {| warehouse_id := "W2"; latitude := PyFloat 0; longitude := PyFloat 0;
     storage_cost := 10 |}.

(** A warehouse priced as W1 is. *)
Definition W3 : Warehouse :=
  {| warehouse_id := "W3"; latitude := PyFloat 0; longitude := PyFloat 0;
     storage_cost := 100 |}.

(** 500 units of P1, delivered at the origin. *)
Definition O1 : Order :=
  {| order_id := "O1"; product_id := "P1"; quantity := 500;
     status := "Pending";
     delivery_latitude := PyFloat 0; delivery_longitude := PyFloat 0 |}.

(** The same order with no delivery latitude. *)
Definition O1_no_latitude : Order :=
  {| order_id := "O1"; product_id := "P1"; quantity := 500;
     status := "Pending";
     delivery_latitude := PyNone; delivery_longitude := PyFloat 0 |}.

Definition O2 : Order :=
  {| order_id := "O2"; product_id := "P1"; quantity := 300;
     status := "Pending";
     delivery_latitude := PyFloat 0; delivery_longitude := PyFloat 0 |}.

Definition S1 : StockRecord :=
  {| inv_warehouse_id := "W1"; inv_product_id := "P1"; current_stock := 500 |}.

Definition S2 : StockRecord :=
  {| inv_warehouse_id := "W2"; inv_product_id := "P1"; current_stock := 500 |}.

Definition S3 : StockRecord :=
  {| inv_warehouse_id := "W3"; inv_product_id := "P1"; current_stock := 500 |}.

(** W1 with 400 units only. *)
Definition S1_short : StockRecord :=
  {| inv_warehouse_id := "W1"; inv_product_id := "P1"; current_stock := 400 |}.

(** A store whose object 1 is the stock DataFrame [rows]. *)
Definition store (rows : list StockRecord) : heap := {[ 1%positive := DataFrame rows ]}.

(** A store whose object 1 is the dict [d]. *)
Definition dict_store (d : gmap string pyval) : heap := {[ 1%positive := Dict d ]}.

End Fixtures.

(** A number: what [round] accepts. *)
Definition numeric (v : pyval) : Prop :=
  match v with
  | PyInt _ | PyFloat _ => True
  | PyNone | PyStr _ | PyObj => False
  end.

(** ** The loop as a function of the rows of the working copy

    [optimize] touches one object of the store, its copy of the stock. Read
    on the rows of that copy, the body of the loop and the loop are the
    functions below; [allocate_rows_spec] and [for_orders_rows] relate them
    to [allocate] and [for_orders]. *)

(** The rows after [df.loc[mask, 'current_stock'] -= q] with the mask of one
    warehouse and one product. *)
Definition deplete (wid pid : string) (q : Z) (rows : list StockRecord)
  : list StockRecord :=
  (fun s => if decide (inv_warehouse_id s = wid /\ inv_product_id s = pid)
            then sub_current_stock q s else s) <$> rows.

Section Rows.

Context {RT : PyRuntime}.

Definition allocate_rows (warehouses : list Warehouse) (rows : list StockRecord)
    (results : Results) (order : Order) : list StockRecord * result Results :=
  match for_rows warehouses order no_allocation
          (filter (fun s => inv_product_id s = product_id order) rows) with
  | Raise e => (rows, Raise e)
  | Ok best =>
      match ba_warehouse_id best with
      | Some wid =>
          (deplete wid (product_id order) (quantity order) rows,
           total ← py_add (total_cost results) (PyFloat (ba_cost best));
           Ok (add_allocation results wid order best total))
      | None => (rows, Ok (add_unfulfilled results order))
      end
  end.

Fixpoint run_rows (warehouses : list Warehouse) (rows : list StockRecord)
    (results : Results) (orders : list Order)
  : list StockRecord * result Results :=
  match orders with
  | [] => (rows, Ok results)
  | order :: orders' =>
      match allocate_rows warehouses rows results order with
      | (rows', Ok results') => run_rows warehouses rows' results' orders'
      | (rows', Raise e) => (rows', Raise e)
      end
  end.

(** What [optimize] makes of the outcome of the loop. *)
Definition finish (elapsed : float) (r : result Results) : result Results :=
  match r with
  | Ok results => Ok (completed results elapsed)
  | Raise e => Raise (ValueError ("Optimization error: " +:+ str e))
  end.

End Rows.

(** ** Reading the sort *)

(** [a] may come before [b]: its status sorts strictly first, or the
    statuses are equal and it asks for no less. *)
Definition precedes (a b : Order) : Prop :=
  String.compare (status a) (status b) = Lt
  \/ (status a = status b /\ quantity b <= quantity a).

(** The orders that tie with [k] on both keys. *)
Definition ties_with (k : Order) (o : Order) : Prop :=
  status o = status k /\ quantity o = quantity k.

Global Instance ties_with_dec k o : Decision (ties_with k o).
Proof. unfold ties_with. apply _. Defined.

(** ** Reading the selection *)

Section Selection.

Context {RT : PyRuntime}.

(** The warehouse row a stock record is priced with: the first row of
    [warehouses] with its warehouse identifier. *)
Definition candidate_warehouse (warehouses : list Warehouse) (s : StockRecord)
  : result Warehouse :=
  lookup_warehouse warehouses (inv_warehouse_id s).

Definition candidate_cost (warehouses : list Warehouse) (order : Order)
    (s : StockRecord) : result float :=
  w ← candidate_warehouse warehouses s; allocation_cost w order.

Definition candidate_distance (warehouses : list Warehouse) (order : Order)
    (s : StockRecord) : result float :=
  w ← candidate_warehouse warehouses s; calculate_distance w order.

(** [cands] holds no candidate priced strictly below [bound]. *)
Definition none_below (warehouses : list Warehouse) (order : Order)
    (bound : float) (cands : list StockRecord) : Prop :=
  Forall (fun c => exists k, candidate_cost warehouses order c = Ok k
                             /\ (k <? bound)%float = false) cands.

(** [c], priced [k], is the first of the candidates of least cost: it
    splits the candidates into those met before it, none of which is priced
    at [k] or below, and those met after it, none of which is priced
    strictly below [k]. *)
Definition first_cheapest (warehouses : list Warehouse) (order : Order)
    (cands : list StockRecord) (c : StockRecord) (k : float) : Prop :=
  exists pre post,
    cands = pre ++ c :: post
    /\ candidate_cost warehouses order c = Ok k
    /\ Forall (fun c' => exists k', candidate_cost warehouses order c' = Ok k'
                                    /\ (k' <=? k)%float = false) pre
    /\ none_below warehouses order k post.

(** The Haversine formula on four doubles in degrees, with the calls of
    the C library. *)
Definition haversine_a (lat1 lon1 lat2 lon2 : float) : float :=
  let dlat := (radians lat2 - radians lat1)%float in
  let dlon := (radians lon2 - radians lon1)%float in
  (libm_pow (libm_sin (dlat / 2)) 2
   + libm_cos (radians lat1) * libm_cos (radians lat2)
     * libm_pow (libm_sin (dlon / 2)) 2)%float.

Definition haversine_km (lat1 lon1 lat2 lon2 : float) : float :=
  let a := haversine_a lat1 lon1 lat2 lon2 in
  (2 * libm_atan2 (PrimFloat.sqrt a) (PrimFloat.sqrt (1 - a)) * 6371)%float.

(** Every call of the formula yields a finite double, so that none is
    turned into an exception by Python's [math]. *)
Definition haversine_finite (lat1 lon1 lat2 lon2 : float) : Prop :=
  let dlat := (radians lat2 - radians lat1)%float in
  let dlon := (radians lon2 - radians lon1)%float in
  let a := haversine_a lat1 lon1 lat2 lon2 in
  Forall (fun x => PrimFloat.is_finite x = true)
    [libm_sin (dlat / 2); libm_pow (libm_sin (dlat / 2)) 2;
     libm_cos (radians lat1); libm_cos (radians lat2);
     libm_sin (dlon / 2); libm_pow (libm_sin (dlon / 2)) 2;
     PrimFloat.sqrt a; PrimFloat.sqrt (1 - a);
     libm_atan2 (PrimFloat.sqrt a) (PrimFloat.sqrt (1 - a))].

End Selection.

(** What identifies an entry with its order: the order identifier and the
    quantity. *)
Definition entry_key (e : AllocationEntry) : string * Z :=
  (ae_order_id e, ae_quantity e).
Definition order_key (o : Order) : string * Z := (order_id o, quantity o).

(** ** Reading the depletion *)

(** The pair a stock record is keyed by. *)
Definition stock_key (s : StockRecord) : string * string :=
  (inv_warehouse_id s, inv_product_id s).

(** The product requested by the order with identifier [oid]. *)
Definition product_of (orders : list Order) (oid : string) : option string :=
  product_id <$> head (filter (fun o => order_id o = oid) orders).

Definition Z_sum (l : list Z) : Z := foldr Z.add 0 l.

(** The sum of the quantities allocated against a warehouse and a product:
    over the entries filed under the warehouse whose order requests the
    product. *)
Definition allocated_against (orders : list Order) (res : Results)
    (wid pid : string) : Z :=
  Z_sum (ae_quantity <$>
           filter (fun e => product_of orders (ae_order_id e) = Some pid)
             (entries_of (allocation_plan res) wid)).

(** [s'] is the record [s] after the allocations made between the results
    [res] and [res']. *)
Definition depleted (orders : list Order) (res res' : Results)
    (s s' : StockRecord) : Prop :=
  stock_key s' = stock_key s
  /\ current_stock s' =
       current_stock s
       - (allocated_against orders res' (inv_warehouse_id s) (inv_product_id s)
          - allocated_against orders res (inv_warehouse_id s) (inv_product_id s))
  /\ current_stock s' <= current_stock s
  /\ (0 <= current_stock s -> 0 <= current_stock s').

(** ** Runs on the fixtures *)

Module Runs.

Import Fixtures.

(** The results of a run that returned. *)
Definition returned (r : result Results) : Results :=
  match r with
  | Ok results => results
  | Raise _ => {| allocation_plan := ∅; warehouse_utilization := ∅;
                  unfulfilled_orders := []; total_cost := PyNone;
                  solving_time := PyNone; r_status := "" |}
  end.

(** Two orders of one product against 500 units in each of two
    warehouses, the clock read at 0 and at 1. *)
Definition two_orders : heap * result Results :=
  optimize (RT := origin_runtime) init 0 1 [W1; W2] [O2; O1] 1%positive
    (store [S1; S2]).

(** The same orders against the stock of W1 alone. *)
Definition short_stock : heap * result Results :=
  optimize (RT := origin_runtime) init 0 1 [W1; W2] [O2; O1] 1%positive
    (store [S1]).

(** An order without delivery latitude against sufficient stock. *)
Definition no_latitude : heap * result Results :=
  optimize (RT := origin_runtime) init 0 1 [W1] [O1_no_latitude] 1%positive
    (store [S1]).

(** A plan as [optimize] leaves it, as a dict. *)
Definition plan_dict : gmap string pyval :=
  {[ "allocation_plan" := PyObj; "warehouse_utilization" := PyObj;
     "unfulfilled_orders" := PyObj; "total_cost" := PyFloat 10;
     "solving_time" := PyFloat 1.5; "status" := PyStr "Completed" ]}.

End Runs.

(** ** Reading an entry of the plan *)

Section Entries.

Context {RT : PyRuntime}.

(** The entry [e], filed under [wid], was made for the order [o] and priced
    with the warehouse row [w]: [w] is the first row of [warehouses] with
    identifier [wid], the entry carries the order's identifier and full
    quantity, its distance is the distance from [w] to the order, and its
    cost, that distance times 10 plus a tenth of the storage cost of [w], is
    below infinity. *)
Definition made_for (warehouses : list Warehouse) (o : Order) (w : Warehouse)
    (wid : string) (e : AllocationEntry) : Prop :=
  lookup_warehouse warehouses wid = Ok w
  /\ ae_order_id e = order_id o /\ ae_quantity e = quantity o
  /\ calculate_distance w o = Ok (ae_distance e)
  /\ ae_cost e = (ae_distance e * 10 + storage_cost w * one_tenth)%float
  /\ (ae_cost e <? PrimFloat.infinity)%float = true.

End Entries.

(** ** Reading the totals *)

(** The running total after adding the costs, one after the other, to the
    int 0 it starts as. *)
Definition running_total (costs : list float) : pyval :=
  match costs with
  | [] => PyInt 0
  | _ :: _ => PyFloat (foldl PrimFloat.add 0%float costs)
  end.

(** [results['total_cost'] += cost], for each cost in turn. *)
Definition add_costs (total : pyval) (costs : list float) : result pyval :=
  foldl (fun acc c => a ← acc; py_add a (PyFloat c)) (Ok total) costs.

(** The [results] dict as the summary reads it: the scalar slots, and a
    container under each of the other keys. *)
Definition results_dict (res : Results) : gmap string pyval :=
  <["allocation_plan" := PyObj]>
  (<["warehouse_utilization" := PyObj]>
   (<["unfulfilled_orders" := PyObj]>
    (<["total_cost" := total_cost res]>
     (<["solving_time" := solving_time res]>
      (<["status" := PyStr (r_status res)]> ∅))))).

(** [s] is the record [s0] with no more stock than it had. *)
Definition no_more (s0 s : StockRecord) : Prop :=
  stock_key s = stock_key s0 /\ current_stock s <= current_stock s0.

(** * The application ([app.py])

    What [LogiTrackApp] computes from a plan, and its login. The widgets of
    Streamlit are inputs: the text of a text input, whether a button was
    pressed. *)

(** ** The routes of the distribution map ([show_distribution_map]) *)



Section Map.

Context {RT : PyRuntime}.




End Map.

(** ** The allocation table of [run] *)


(** ** The login ([__init__], [login_page], [run]) *)

(** Text as Python has it: a sequence of code points. *)
Definition text : Type := list N.

(** [str.isspace] on one code point (CPython's [_PyUnicode_IsWhitespace]). *)
Definition isspace (c : N) : bool :=
  ((9 <=? c) && (c <=? 13) || (28 <=? c) && (c <=? 32)
   || (c =? 133) || (c =? 160) || (c =? 5760)
   || (8192 <=? c) && (c <=? 8202)
   || (c =? 8232) || (c =? 8233) || (c =? 8239) || (c =? 8287)
   || (c =? 12288))%N.

Fixpoint lstrip (s : text) : text :=
  match s with
  | c :: s' => if isspace c then lstrip s' else s
  | [] => []
  end.

(** [s.strip()] *)
Definition strip (s : text) : text := reverse (lstrip (reverse (lstrip s))).

(** [st.session_state] once the application has initialised it. *)
Record SessionState : Type := {
  logged_in : bool;
  username : text
}.

(** The part of [__init__] on the session state: a session that has no
    [logged_in] yet starts logged out with an empty name. *)
Definition init_session (session : option SessionState) : SessionState :=
  match session with
  | Some s => s
  | None => {| logged_in := false; username := [] |}
  end.

(** What [login_page] asks of Streamlit after the page is drawn. *)
Inductive LoginOutcome : Type :=
| Rerun               (* [st.rerun()] *)
| WarnEmptyName       (* [st.warning("Please enter a name")] *)
| Idle.

(** [login_page], given the text of the input and whether Enter was
    pressed. *)
Definition login_page (name_input : text) (enter : bool) (s : SessionState)
  : SessionState * LoginOutcome :=
  if enter then
    match strip name_input with
    | _ :: _ => ({| logged_in := true; username := name_input |}, Rerun)
    | [] => (s, WarnEmptyName)
    end
  else (s, Idle).

(** One run of the script on the session: [LogiTrackApp()] then [run()].
    Past the login, no page writes to the session. *)
Definition script_run (session : option SessionState)
    (inputs : text * bool) : option SessionState :=
  let s := init_session session in
  if logged_in s then Some s
  else Some (login_page inputs.1 inputs.2 s).1.

(** A stock record of a product that some order requests. *)
Definition requested (orders : list Order) (s : StockRecord) : Prop :=
  inv_product_id s ∈ product_id <$> orders.

Global Instance requested_dec orders s : Decision (requested orders s).
Proof. unfold requested. apply _. Defined.

(** * Properties *)

(** ** The order of doubles *)

Module FloatOrder.

Lemma SFcompare_lt_trans (x y z : spec_float) :
  SFcompare x y = Some Lt -> SFcompare y z = Some Lt -> SFcompare x z = Some Lt.
Proof.
  destruct x as [[]|[]| |[] mx ex], y as [[]|[]| |[] my ey],
           z as [[]|[]| |[] mz ez]; simpl; try congruence;
    intros Hxy Hyz; f_equal;
    destruct (Z.compare_spec ex ey), (Z.compare_spec ey ez),
             (Z.compare_spec ex ez); try congruence; try lia; subst;
    rewrite ?Pos.compare_cont_spec in *; simpl in *;
    destruct (Pos.compare_spec mx my), (Pos.compare_spec my mz),
             (Pos.compare_spec mx mz); simpl in *; try congruence; try lia.
Qed.

Lemma SFcompare_le_lt_trans (x y z : spec_float) :
  SFleb x y = true -> SFltb y z = true -> SFltb x z = true.
Proof.
  unfold SFleb, SFltb.
  destruct x as [[]|[]| |[] mx ex], y as [[]|[]| |[] my ey],
           z as [[]|[]| |[] mz ez]; simpl; try congruence;
    intros Hxy Hyz;
    destruct (Z.compare_spec ex ey), (Z.compare_spec ey ez),
             (Z.compare_spec ex ez); try congruence; try lia; subst;
    rewrite ?Pos.compare_cont_spec in *; simpl in *;
    destruct (Pos.compare_spec mx my), (Pos.compare_spec my mz),
             (Pos.compare_spec mx mz); simpl in *; try congruence; try lia.
Qed.

Lemma SFcompare_lt_not_ge (x y : spec_float) :
  SFltb x y = true -> SFleb y x = false.
Proof.
  unfold SFleb, SFltb.
  destruct x as [[]|[]| |[] mx ex], y as [[]|[]| |[] my ey];
    simpl; try congruence;
    destruct (Z.compare_spec ex ey), (Z.compare_spec ey ex);
    try congruence; try lia; subst;
    rewrite ?Pos.compare_cont_spec; simpl;
    destruct (Pos.compare_spec mx my), (Pos.compare_spec my mx);
    simpl; try congruence; try lia.
Qed.

(** [<] on doubles is transitive. *)
Lemma ltb_trans (x y z : float) :
  (x <? y)%float = true -> (y <? z)%float = true -> (x <? z)%float = true.
Proof.
  rewrite !ltb_spec. unfold SFltb. intros Hxy Hyz.
  destruct (SFcompare (Prim2SF x) (Prim2SF y)) as [[]|] eqn:E1; try discriminate.
  destruct (SFcompare (Prim2SF y) (Prim2SF z)) as [[]|] eqn:E2; try discriminate.
  by rewrite (SFcompare_lt_trans _ _ _ E1 E2).
Qed.

Lemma leb_ltb_trans (x y z : float) :
  (x <=? y)%float = true -> (y <? z)%float = true -> (x <? z)%float = true.
Proof. rewrite leb_spec, !ltb_spec. apply SFcompare_le_lt_trans. Qed.

Lemma ltb_not_leb (x y : float) :
  (x <? y)%float = true -> (y <=? x)%float = false.
Proof. rewrite leb_spec, ltb_spec. apply SFcompare_lt_not_ge. Qed.

(** Nothing is above infinity: neither infinity plus something nor a NaN is
    below any double. *)
Lemma infinity_add_not_ltb (y b : float) :
  (PrimFloat.infinity + y <? b)%float = false.
Proof.
  rewrite ltb_spec, add_spec. unfold SF64add, SFltb.
  change (Prim2SF PrimFloat.infinity) with (S754_infinity false).
  destruct (Prim2SF y) as [[]|[]| |[] my ey], (Prim2SF b) as [[]|[]| |[] mb eb];
    reflexivity.
Qed.

Lemma infinity_mul_10 : (PrimFloat.infinity * 10)%float = PrimFloat.infinity.
Proof. reflexivity. Qed.

Lemma is_nan_spec (x : float) : PrimFloat.is_nan x = true -> Prim2SF x = S754_nan.
Proof.
  unfold PrimFloat.is_nan. rewrite FloatAxioms.eqb_spec. unfold SFeqb.
  destruct (Prim2SF x) as [[]|[]| |[] mx ex]; simpl; try done;
    rewrite Z.compare_refl, ?Pos.compare_cont_spec, Pos.compare_refl; done.
Qed.

(** A NaN distance makes a NaN cost, which is below no double. *)
Lemma nan_mul_add_not_ltb (d y b : float) :
  PrimFloat.is_nan d = true -> (d * 10 + y <? b)%float = false.
Proof.
  intros Hd. apply is_nan_spec in Hd.
  rewrite ltb_spec, add_spec, mul_spec, Hd. reflexivity.
Qed.

End FloatOrder.

(** ** The distance never raises *)

Section DistanceProperties.

Context {RT : PyRuntime}.

Lemma calculate_distance_total (w : Warehouse) (o : Order) :
  exists d, calculate_distance w o = Ok d.
Proof.
  unfold calculate_distance, try_except.
  destruct (haversine w o); eauto.
Qed.

Lemma calculate_distance_raise (w : Warehouse) (o : Order) (e : exn) :
  haversine w o = Raise e -> calculate_distance w o = Ok PrimFloat.infinity.
Proof. unfold calculate_distance. by intros ->. Qed.

(** A coordinate that [float()] rejects makes the body raise. *)
Lemma haversine_bad_coordinate (w : Warehouse) (o : Order) :
  (exists e, py_float (latitude w) = Raise e) \/
  (exists e, py_float (longitude w) = Raise e) \/
  (exists e, py_float (delivery_latitude o) = Raise e) \/
  (exists e, py_float (delivery_longitude o) = Raise e) ->
  exists e, haversine w o = Raise e.
Proof.
  unfold haversine.
  destruct (py_float (latitude w)) as [f1|e1]; simpl; [|eauto].
  destruct (py_float (longitude w)) as [g1|e2]; simpl; [|eauto].
  destruct (py_float (delivery_latitude o)) as [f2|e3]; simpl; [|eauto].
  destruct (py_float (delivery_longitude o)) as [g2|e4]; simpl; [|eauto].
  intros [[e H]|[[e H]|[[e H]|[e H]]]]; discriminate.
Qed.

(** A candidate at infinite distance never replaces the best allocation,
    whatever its storage cost. *)
Lemma consider_infinite_distance (ws : list Warehouse) (w : Warehouse)
    (o : Order) (best : BestAllocation) (s : StockRecord) :
  calculate_distance w o = Ok PrimFloat.infinity ->
  lookup_warehouse ws (inv_warehouse_id s) = Ok w ->
  consider ws o best s = Ok best.
Proof.
  intros Hd Hw. unfold consider. case_decide; [|done].
  rewrite Hw. simpl. unfold allocation_cost. rewrite Hd. simpl.
  by rewrite ?FloatOrder.infinity_mul_10, FloatOrder.infinity_add_not_ltb.
Qed.

(** So does a candidate whose distance is a NaN, which is what a C library
    makes of a NaN coordinate (the missing value of a float column). *)
Lemma consider_nan_distance (ws : list Warehouse) (w : Warehouse)
    (o : Order) (best : BestAllocation) (s : StockRecord) (d : float) :
  calculate_distance w o = Ok d -> PrimFloat.is_nan d = true ->
  lookup_warehouse ws (inv_warehouse_id s) = Ok w ->
  consider ws o best s = Ok best.
Proof.
  intros Hd Hnan Hw. unfold consider. case_decide; [|done].
  rewrite Hw. simpl. unfold allocation_cost. rewrite Hd. simpl.
  by rewrite FloatOrder.nan_mul_add_not_ltb.
Qed.

(** C5: [calculate_distance] returns for every input; whenever the
    Haversine computation raises, in particular when a coordinate is
    missing or not a number, the result is infinity; and a candidate whose
    distance is infinity (or a NaN) is skipped by the selection, which goes
    on with its best allocation unchanged instead of failing. *)
Theorem calculate_distance_never_raises (w : Warehouse) (o : Order) :
  (exists d, calculate_distance w o = Ok d)
  /\ (forall e, haversine w o = Raise e ->
                calculate_distance w o = Ok PrimFloat.infinity)
  /\ ((exists e, py_float (latitude w) = Raise e) \/
      (exists e, py_float (longitude w) = Raise e) \/
      (exists e, py_float (delivery_latitude o) = Raise e) \/
      (exists e, py_float (delivery_longitude o) = Raise e) ->
      calculate_distance w o = Ok PrimFloat.infinity)
  /\ (forall d, calculate_distance w o = Ok d ->
        d = PrimFloat.infinity \/ PrimFloat.is_nan d = true ->
        forall ws best s,
          lookup_warehouse ws (inv_warehouse_id s) = Ok w ->
          consider ws o best s = Ok best).
Proof.
  split; [apply calculate_distance_total|].
  split; [apply calculate_distance_raise|].
  split.
  - intros H. destruct (haversine_bad_coordinate w o H) as [e He].
    by apply calculate_distance_raise with e.
  - intros d Hd [->|Hnan] ws best s Hw.
    + by apply consider_infinite_distance with w.
    + by apply consider_nan_distance with w d.
Qed.

End DistanceProperties.

(** ** The summary *)

Section SummaryProperties.

Context {RT : PyRuntime}.

Lemma dict_get_heap (r : loc) (key : string) (dflt : pyval) (h : heap) :
  (dict_get r key dflt h).1 = h.
Proof. unfold dict_get. by destruct (h !! r) as [[]|]. Qed.

Lemma dict_get_dict (r : loc) (key : string) (dflt : pyval) (h : heap)
    (d : gmap string pyval) :
  h !! r = Some (Dict d) ->
  dict_get r key dflt h = (h, Ok (default dflt (d !! key))).
Proof. unfold dict_get. by intros ->. Qed.

Lemma py_round_numeric (v : pyval) (n : Z) :
  numeric v -> exists v', py_round v n = Ok v' /\ numeric v'.
Proof.
  destruct v as [|z|f|s|]; simpl; try done; intros _.
  - by exists (PyInt z).
  - destruct (PrimFloat.is_finite f); by eexists.
Qed.

(** The summary only reads: whatever it is given, the store is the same
    afterwards. *)
Lemma summary_read_only (self : InventoryOptimizer) (r : loc) (h : heap) :
  (get_optimization_summary self r h).1 = h.
Proof.
  unfold get_optimization_summary, try_except_M, summary_body, mbind, M_bind,
    lift, mret, M_ret.
  repeat match goal with
  | |- context [dict_get ?r ?k ?v ?h] =>
      let E := fresh "E" in
      pose proof (dict_get_heap r k v h) as E;
      destruct (dict_get r k v h) as [? [?|?]]; simpl in E; subst; simpl
  | |- context [py_round ?v ?n] => destruct (py_round v n); simpl
  end; done.
Qed.

Lemma summary_body_dict (r : loc) (h : heap) (d : gmap string pyval) :
  h !! r = Some (Dict d) ->
  summary_body r h =
    (h, total ← py_round (default (PyInt 0) (d !! "total_cost")) 2;
        time ← py_round (default (PyInt 0) (d !! "solving_time")) 2;
        Ok (<["total_cost" := total]>
            (<["solving_time" := time]>
             (<["status" := default (PyStr "Unknown") (d !! "status")]>
              (<["timestamp" := default PyNone (d !! "optimization_timestamp")]>
               ∅))))).
Proof.
  intros Hd. unfold summary_body, mbind, M_bind, lift, mret, M_ret.
  rewrite (dict_get_dict r "total_cost" _ h d Hd).
  destruct (py_round _ 2); simpl; [|done].
  rewrite (dict_get_dict r "solving_time" _ h d Hd).
  destruct (py_round _ 2); simpl; [|done].
  by rewrite (dict_get_dict r "status" _ h d Hd),
    (dict_get_dict r "optimization_timestamp" _ h d Hd).
Qed.

Lemma summary_total (self : InventoryOptimizer) (r : loc) (h : heap) :
  exists d, (get_optimization_summary self r h).2 = Ok d.
Proof.
  unfold get_optimization_summary, try_except_M.
  destruct (summary_body r h) as [h' [d|e]]; simpl; eauto.
Qed.

Lemma summary_raise (self : InventoryOptimizer) (r : loc) (h : heap) (e : exn) :
  (summary_body r h).2 = Raise e ->
  (get_optimization_summary self r h).2 = Ok ∅.
Proof.
  unfold get_optimization_summary, try_except_M.
  destruct (summary_body r h) as [h' [d|e']]; simpl; [done|]. done.
Qed.

(** C8 (as amended): the summary never writes to the store; and for a plan
    whose [total_cost] and [solving_time] are numbers or missing, it holds
    [round(total_cost, 2)] and [round(solving_time, 2)], a missing one
    counting as 0, the status as it is or ["Unknown"], and under
    ["timestamp"] the plan's [optimization_timestamp] or, when the plan has
    none, [None]. *)
Theorem summary_contents (self : InventoryOptimizer) (r : loc) (h : heap)
    (d : gmap string pyval) :
  h !! r = Some (Dict d) ->
  numeric (default (PyInt 0) (d !! "total_cost")) ->
  numeric (default (PyInt 0) (d !! "solving_time")) ->
  (forall r' h', (get_optimization_summary self r' h').1 = h')
  /\ exists total time,
      py_round (default (PyInt 0) (d !! "total_cost")) 2 = Ok total
      /\ py_round (default (PyInt 0) (d !! "solving_time")) 2 = Ok time
      /\ get_optimization_summary self r h =
           (h, Ok (<["total_cost" := total]>
                   (<["solving_time" := time]>
                    (<["status" := default (PyStr "Unknown") (d !! "status")]>
                     (<["timestamp" :=
                          default PyNone (d !! "optimization_timestamp")]>
                      ∅))))).
Proof.
  intros Hd Hc Ht. split; [intros; apply summary_read_only|].
  destruct (py_round_numeric _ 2 Hc) as (total & Hr1 & _).
  destruct (py_round_numeric _ 2 Ht) as (time & Hr2 & _).
  exists total, time. split; [done|]. split; [done|].
  unfold get_optimization_summary, try_except_M.
  rewrite (summary_body_dict _ _ _ Hd), Hr1, Hr2. done.
Qed.

(** C10: [get_optimization_summary] returns for every input; whenever
    its body raises it returns the empty dict, as it does for a plan whose
    [total_cost] or [solving_time] is not a number. *)
Theorem summary_never_raises (self : InventoryOptimizer) (r : loc) (h : heap) :
  (exists d, (get_optimization_summary self r h).2 = Ok d)
  /\ (forall e, (summary_body r h).2 = Raise e ->
                (get_optimization_summary self r h).2 = Ok ∅)
  /\ (forall d, h !! r = Some (Dict d) ->
        ~ numeric (default (PyInt 0) (d !! "total_cost")) \/
        ~ numeric (default (PyInt 0) (d !! "solving_time")) ->
        (get_optimization_summary self r h).2 = Ok ∅).
Proof.
  split; [apply summary_total|].
  split; [apply summary_raise|].
  intros d Hd Hbad. unfold get_optimization_summary, try_except_M.
  rewrite (summary_body_dict _ _ _ Hd).
  destruct (default (PyInt 0) (d !! "total_cost")) as [|z|f|s|] eqn:E1;
    simpl; try done;
    try (destruct (PrimFloat.is_finite f); simpl);
    destruct (default (PyInt 0) (d !! "solving_time")) as [|z'|f'|s'|] eqn:E2;
    simpl; try done;
    try (destruct (PrimFloat.is_finite f'); simpl);
    destruct Hbad as [Hbad|Hbad]; exfalso; by apply Hbad.
Qed.

End SummaryProperties.

(** ** The engine and the store *)

Section Store.

Context {RT : PyRuntime}.

Lemma allocate_rows_spec (ws : list Warehouse) (l : loc) (res : Results)
    (o : Order) (h : heap) (rows : list StockRecord) :
  h !! l = Some (DataFrame rows) ->
  allocate ws l res o h =
    (<[l := DataFrame (allocate_rows ws rows res o).1]> h,
     (allocate_rows ws rows res o).2).
Proof.
  intros Hl. unfold allocate, allocate_rows, mbind, M_bind, df_select, lift.
  rewrite Hl.
  destruct (for_rows ws o no_allocation _) as [best|e]; simpl.
  - destruct (ba_warehouse_id best) as [wid|]; simpl.
    + unfold df_isub_current_stock. rewrite Hl. simpl.
      unfold deplete.
      destruct (py_add _ _); simpl; done.
    + by rewrite insert_id.
  - by rewrite insert_id.
Qed.

Lemma for_orders_rows (ws : list Warehouse) (l : loc) (os : list Order) :
  forall (res : Results) (h : heap) (rows : list StockRecord),
    h !! l = Some (DataFrame rows) ->
    for_orders ws l res os h =
      (<[l := DataFrame (run_rows ws rows res os).1]> h,
       (run_rows ws rows res os).2).
Proof.
  induction os as [|o os IH]; intros res h rows Hl; simpl.
  - by rewrite insert_id.
  - unfold mbind, M_bind. rewrite (allocate_rows_spec _ _ _ _ _ _ Hl).
    destruct (allocate_rows ws rows res o) as [rows' [res'|e]]; simpl; [|done].
    rewrite (IH res' _ rows') by apply lookup_insert_eq.
    by rewrite insert_insert_eq.
Qed.

(** [optimize] on a stock DataFrame: the copy is a new object, the loop
    runs on it, and nothing else is written. *)
Lemma optimize_rows (self : InventoryOptimizer) (t0 t1 : float)
    (ws : list Warehouse) (os : list Order) (inv : loc) (h : heap)
    (rows : list StockRecord) :
  h !! inv = Some (DataFrame rows) ->
  optimize self t0 t1 ws os inv h =
    (<[fresh (dom h) := DataFrame (run_rows ws rows empty_results (sort_values os)).1]> h,
     finish (t1 - t0) (run_rows ws rows empty_results (sort_values os)).2).
Proof.
  intros Hinv. unfold optimize, try_except_M, mbind, M_bind, df_copy.
  rewrite Hinv.
  rewrite (for_orders_rows _ _ _ _ _ rows) by apply lookup_insert_eq.
  rewrite insert_insert_eq.
  destruct (run_rows ws rows empty_results (sort_values os)) as [rows' [res|e]];
    simpl; done.
Qed.

(** [optimize] on anything else fails at the copy, before any write. *)
Lemma optimize_no_dataframe (self : InventoryOptimizer) (t0 t1 : float)
    (ws : list Warehouse) (os : list Order) (inv : loc) (h : heap) :
  (forall rows, h !! inv <> Some (DataFrame rows)) ->
  optimize self t0 t1 ws os inv h =
    (h, Raise (ValueError ("Optimization error: " +:+ str (no_attribute "copy")))).
Proof.
  intros Hinv. unfold optimize, try_except_M, mbind, M_bind, df_copy.
  destruct (h !! inv) as [[rows|d]|]; simpl; try done.
  by destruct (Hinv rows).
Qed.

Lemma fresh_not_in_store (h : heap) (l : loc) :
  is_Some (h !! l) -> l <> fresh (dom h).
Proof.
  intros Hl ->. apply elem_of_dom in Hl. by apply is_fresh in Hl.
Qed.

End Store.

(** ** The caller's stock and the solver time limit *)

Section Frame.

Context {RT : PyRuntime}.

Lemma optimize_cases (self : InventoryOptimizer) (t0 t1 : float)
    (ws : list Warehouse) (os : list Order) (inv : loc) (h : heap) :
  (exists rows, h !! inv = Some (DataFrame rows)
     /\ optimize self t0 t1 ws os inv h =
          (<[fresh (dom h) :=
               DataFrame (run_rows ws rows empty_results (sort_values os)).1]> h,
           finish (t1 - t0) (run_rows ws rows empty_results (sort_values os)).2))
  \/ ((forall rows, h !! inv <> Some (DataFrame rows))
     /\ optimize self t0 t1 ws os inv h =
          (h, Raise (ValueError
                       ("Optimization error: " +:+ str (no_attribute "copy"))))).
Proof.
  destruct (h !! inv) as [[rows|d]|] eqn:E.
  - left. exists rows. split; [done|]. by apply optimize_rows.
  - right. split; [|apply optimize_no_dataframe]; intros rows; congruence.
  - right. split; [|apply optimize_no_dataframe]; intros rows; congruence.
Qed.

Lemma optimize_frame (self : InventoryOptimizer) (t0 t1 : float)
    (ws : list Warehouse) (os : list Order) (inv : loc) (h : heap) (l : loc) :
  is_Some (h !! l) -> (optimize self t0 t1 ws os inv h).1 !! l = h !! l.
Proof.
  intros Hl.
  destruct (optimize_cases self t0 t1 ws os inv h) as [(rows & _ & ->)|[_ ->]];
    simpl; [|done].
  apply lookup_insert_ne. apply not_eq_sym. by apply fresh_not_in_store.
Qed.

(** C6: [optimize] writes to its private copy only. Every object that
    was in the store before the call, the caller's stock among them, is the
    same after it, whether the call returns or raises; so a second run on
    the same stock has the same outcome as the first. *)
Theorem optimize_keeps_inventory (self : InventoryOptimizer) (t0 t1 : float)
    (ws : list Warehouse) (os : list Order) (inv : loc) (h : heap) :
  let out := optimize self t0 t1 ws os inv h in
  (forall l, is_Some (h !! l) -> out.1 !! l = h !! l)
  /\ out.1 !! inv = h !! inv
  /\ (optimize self t0 t1 ws os inv out.1).2 = out.2.
Proof.
  simpl. split; [intros l; apply optimize_frame|].
  destruct (optimize_cases self t0 t1 ws os inv h) as [(rows & Hinv & E)|[Hinv E]].
  - assert ((optimize self t0 t1 ws os inv h).1 !! inv = h !! inv) as Hsame
      by (apply optimize_frame; rewrite Hinv; eauto).
    split; [done|].
    rewrite (optimize_rows self t0 t1 ws os inv _ rows) by by rewrite Hsame.
    by rewrite E.
  - rewrite E. simpl. split; [done|]. by rewrite E.
Qed.

(** C7: the solver time limit is not read by [optimize]. Two runs on
    the same warehouses, orders and stock whose optimizers differ in
    [solver_time], at whatever clock readings, leave the same store and
    either both raise the same error or both return, with the same
    allocation plan, unfulfilled list, total cost and status. *)
Theorem solver_time_not_enforced (self : InventoryOptimizer) (limit limit' : Z)
    (t0 t1 t0' t1' : float)
    (ws : list Warehouse) (os : list Order) (inv : loc) (h : heap) :
  let out := optimize (set_solver_time self limit) t0 t1 ws os inv h in
  let out' := optimize (set_solver_time self limit') t0' t1' ws os inv h in
  out.1 = out'.1
  /\ match out.2, out'.2 with
     | Ok r, Ok r' =>
         allocation_plan r = allocation_plan r'
         /\ unfulfilled_orders r = unfulfilled_orders r'
         /\ total_cost r = total_cost r'
         /\ r_status r = r_status r'
     | Raise e, Raise e' => e = e'
     | _, _ => False
     end.
Proof.
  simpl.
  destruct (optimize_cases (set_solver_time self limit) t0 t1 ws os inv h)
    as [(rows & Hinv & ->)|[Hinv ->]].
  - rewrite (optimize_rows _ t0' t1' ws os inv h rows Hinv). simpl.
    split; [done|].
    by destruct (run_rows ws rows empty_results (sort_values os)) as [rows' [res|e]].
  - by rewrite (optimize_no_dataframe _ t0' t1' ws os inv h Hinv).
Qed.

End Frame.

(** ** The order of processing *)

Module StringOrder.

Lemma ascii_compare_lt_trans (a b c : Ascii.ascii) :
  Ascii.compare a b = Lt -> Ascii.compare b c = Lt -> Ascii.compare a c = Lt.
Proof.
  unfold Ascii.compare. rewrite !N.compare_lt_iff. lia.
Qed.

Lemma compare_lt_trans (s1 : string) :
  forall s2 s3,
    String.compare s1 s2 = Lt -> String.compare s2 s3 = Lt ->
    String.compare s1 s3 = Lt.
Proof.
  induction s1 as [|a s1 IH]; intros [|b s2] [|c s3]; simpl; try done.
  destruct (Ascii.compare a b) eqn:Eab; try done;
    destruct (Ascii.compare b c) eqn:Ebc; try done; intros H12 H23.
  - apply Ascii.compare_eq_iff in Eab, Ebc. subst.
    rewrite (proj2 (N.compare_eq_iff _ _) eq_refl : Ascii.compare c c = Eq).
    by apply IH with s2.
  - apply Ascii.compare_eq_iff in Eab. subst. by rewrite Ebc.
  - apply Ascii.compare_eq_iff in Ebc. subst. by rewrite Eab.
  - by rewrite (ascii_compare_lt_trans _ _ _ Eab Ebc).
Qed.

Lemma compare_refl (s : string) : String.compare s s = Eq.
Proof.
  induction s as [|a s IH]; simpl; [done|].
  by rewrite (proj2 (N.compare_eq_iff _ _) eq_refl : Ascii.compare a a = Eq).
Qed.

Lemma ltb_lt (s1 s2 : string) :
  String.ltb s1 s2 = true <-> String.compare s1 s2 = Lt.
Proof. unfold String.ltb. destruct (String.compare s1 s2); naive_solver. Qed.

(** Two strings are equal or one sorts strictly first. *)
Lemma compare_total (s1 s2 : string) :
  String.compare s1 s2 = Lt \/ s1 = s2 \/ String.compare s2 s1 = Lt.
Proof.
  destruct (String.compare s1 s2) eqn:E; [right; left|by left|right; right].
  - by apply String.compare_eq_iff.
  - rewrite String.compare_antisym, E. done.
Qed.

End StringOrder.

Section Sorting.

Lemma order_before_precedes (a b : Order) :
  order_before a b = true <-> precedes a b.
Proof.
  unfold order_before, precedes.
  rewrite orb_true_iff, andb_true_iff, StringOrder.ltb_lt, String.eqb_eq,
    Z.leb_le. done.
Qed.

Lemma precedes_total (a b : Order) : ~ precedes a b -> precedes b a.
Proof.
  unfold precedes. intros Hn.
  destruct (StringOrder.compare_total (status a) (status b)) as [H|[H|H]].
  - destruct Hn. by left.
  - right. split; [done|].
    destruct (decide (quantity b <= quantity a)); [|lia].
    destruct Hn. by right.
  - by left.
Qed.

Lemma precedes_trans (a b c : Order) :
  precedes a b -> precedes b c -> precedes a c.
Proof.
  unfold precedes. intros [H1|[E1 H1]] [H2|[E2 H2]].
  - left. by apply StringOrder.compare_lt_trans with (status b).
  - left. by rewrite <- E2.
  - left. by rewrite E1.
  - right. split; [congruence|lia].
Qed.

Lemma insert_order_perm (o : Order) (l : list Order) :
  insert_order o l ≡ₚ o :: l.
Proof.
  induction l as [|x l IH]; simpl; [done|].
  destruct (order_before o x); [done|].
  rewrite IH. apply Permutation_swap.
Qed.

Lemma sort_values_perm (l : list Order) : sort_values l ≡ₚ l.
Proof.
  induction l as [|o l IH]; simpl; [done|].
  unfold sort_values in *. simpl. by rewrite insert_order_perm, IH.
Qed.

Lemma insert_order_sorted (o : Order) (l : list Order) :
  StronglySorted precedes l -> StronglySorted precedes (insert_order o l).
Proof.
  induction 1 as [|x l Hs IH Hx]; simpl.
  - repeat constructor.
  - destruct (order_before o x) eqn:E.
    + apply order_before_precedes in E.
      constructor; [by constructor|].
      constructor; [done|].
      eapply Forall_impl; [exact Hx|]. intros y Hy.
      by apply precedes_trans with x.
    + constructor; [done|].
      assert (precedes x o) as Hxo.
      { apply precedes_total. rewrite <- order_before_precedes. congruence. }
      rewrite insert_order_perm. by constructor.
Qed.

Lemma sort_values_sorted (l : list Order) :
  StronglySorted precedes (sort_values l).
Proof.
  induction l as [|o l IH]; [constructor|].
  unfold sort_values in *. simpl. by apply insert_order_sorted.
Qed.

Lemma ties_precede (k a b : Order) :
  ties_with k a -> ties_with k b -> order_before a b = true.
Proof.
  intros [Ha1 Ha2] [Hb1 Hb2]. apply order_before_precedes.
  right. split; [congruence|lia].
Qed.

Lemma insert_order_stable (k o : Order) (l : list Order) :
  filter (ties_with k) (insert_order o l) = filter (ties_with k) (o :: l).
Proof.
  induction l as [|x l IH]; simpl; [done|].
  destruct (order_before o x) eqn:E; [done|].
  rewrite (filter_cons _ x), IH, !filter_cons.
  destruct (decide (ties_with k o)) as [Ho|Ho];
    destruct (decide (ties_with k x)) as [Hx|Hx]; try done.
  by rewrite (ties_precede k o x) in E.
Qed.

Lemma sort_values_stable (k : Order) (l : list Order) :
  filter (ties_with k) (sort_values l) = filter (ties_with k) l.
Proof.
  induction l as [|o l IH]; [done|].
  unfold sort_values in *. simpl.
  by rewrite insert_order_stable, !filter_cons, IH.
Qed.

End Sorting.

(** ** The choice of a warehouse *)

Section Choice.

Context {RT : PyRuntime}.

Lemma math_1_finite (func : float -> float) (x : float) :
  PrimFloat.is_finite (func x) = true -> math_1 func x = Ok (func x).
Proof.
  unfold math_1, PrimFloat.is_finite. intros H.
  apply negb_true_iff, orb_false_iff in H as [-> ->]. done.
Qed.

Lemma atan2_finite (y x : float) :
  PrimFloat.is_finite (libm_atan2 y x) = true -> atan2 y x = Ok (libm_atan2 y x).
Proof.
  unfold atan2, PrimFloat.is_finite. intros H.
  apply negb_true_iff, orb_false_iff in H as [-> ->]. done.
Qed.

Lemma pow2_finite (x : float) :
  PrimFloat.is_finite (libm_pow x 2) = true -> pow2 x = Ok (libm_pow x 2).
Proof.
  unfold pow2, PrimFloat.is_finite. intros H.
  apply negb_true_iff, orb_false_iff in H as [_ ->]. done.
Qed.

(** On numeric coordinates, and as long as the C library stays finite,
    the distance is the Haversine formula with radius 6371. *)
Lemma calculate_distance_haversine (w : Warehouse) (o : Order)
    (lat1 lon1 lat2 lon2 : float) :
  py_float (latitude w) = Ok lat1 -> py_float (longitude w) = Ok lon1 ->
  py_float (delivery_latitude o) = Ok lat2 ->
  py_float (delivery_longitude o) = Ok lon2 ->
  haversine_finite lat1 lon1 lat2 lon2 ->
  calculate_distance w o = Ok (haversine_km lat1 lon1 lat2 lon2).
Proof.
  intros H1 H2 H3 H4 Hfin.
  unfold calculate_distance, haversine. rewrite H1, H2, H3, H4. simpl.
  unfold haversine_finite in Hfin.
  repeat match goal with
  | H : Forall _ (_ :: _) |- _ => apply Forall_cons in H as [? H]
  end.
  unfold sin, cos, sqrt.
  rewrite (math_1_finite libm_sin) by done. simpl.
  rewrite pow2_finite by done. simpl.
  rewrite !(math_1_finite libm_cos) by done. simpl.
  rewrite (math_1_finite libm_sin) by done. simpl.
  rewrite pow2_finite by done. simpl.
  fold (haversine_a lat1 lon1 lat2 lon2).
  rewrite !(math_1_finite PrimFloat.sqrt) by done. simpl.
  rewrite atan2_finite by done. done.
Qed.

Lemma candidate_cost_formula (ws : list Warehouse) (o : Order) (c : StockRecord)
    (w : Warehouse) :
  candidate_warehouse ws c = Ok w ->
  exists d, calculate_distance w o = Ok d
    /\ candidate_distance ws o c = Ok d
    /\ candidate_cost ws o c =
         Ok (d * 10 + storage_cost w * one_tenth)%float.
Proof.
  intros Hw. destruct (calculate_distance_total w o) as [d Hd].
  exists d. unfold candidate_cost, candidate_distance, allocation_cost.
  rewrite Hw. simpl. rewrite Hd. done.
Qed.

Lemma lookup_warehouse_ok (ws : list Warehouse) (wid : string) (w : Warehouse) :
  lookup_warehouse ws wid = Ok w -> w ∈ ws /\ warehouse_id w = wid.
Proof.
  unfold lookup_warehouse.
  destruct (filter _ ws) as [|w' l] eqn:E; [done|].
  intros [= <-].
  assert (w' ∈ filter (fun w => warehouse_id w = wid) ws) as Hin
    by (rewrite E; left).
  by apply list_elem_of_filter in Hin as [? ?].
Qed.

Lemma lookup_warehouse_known (ws : list Warehouse) (wid : string) :
  (exists w, w ∈ ws /\ warehouse_id w = wid) ->
  exists w, lookup_warehouse ws wid = Ok w.
Proof.
  intros (w & Hin & Hid). unfold lookup_warehouse.
  destruct (filter _ ws) as [|w' l] eqn:E; [|eauto].
  assert (w ∈ filter (fun w => warehouse_id w = wid) ws) as Hf
    by by apply list_elem_of_filter.
  rewrite E in Hf. by apply elem_of_nil in Hf.
Qed.

Lemma lookup_warehouse_unknown (ws : list Warehouse) (wid : string) :
  (forall w, w ∈ ws -> warehouse_id w <> wid) ->
  lookup_warehouse ws wid =
    Raise (IndexError "single positional indexer is out-of-bounds").
Proof.
  intros Hno. unfold lookup_warehouse.
  destruct (filter _ ws) as [|w' l] eqn:E; [done|].
  assert (w' ∈ filter (fun w => warehouse_id w = wid) ws) as Hin
    by (rewrite E; left).
  apply list_elem_of_filter in Hin as [? ?]. by destruct (Hno w').
Qed.

(** The rows of the product that do not cover the order are passed over. *)
Lemma for_rows_candidates (ws : list Warehouse) (o : Order)
    (rows : list StockRecord) :
  forall b,
    for_rows ws o b (filter (fun s => inv_product_id s = product_id o) rows)
    = for_rows ws o b (candidates o rows).
Proof.
  unfold candidates.
  induction rows as [|s rows IH]; intros b; [done|].
  rewrite !filter_cons.
  destruct (decide (inv_product_id s = product_id o)) as [Hp|Hp].
  - destruct (decide (feasible o s)) as [Hf|Hf]; simpl.
    + destruct (consider ws o b s); simpl; [apply IH|done].
    + unfold consider. rewrite decide_False by (intros ?; apply Hf; by split).
      simpl. apply IH.
  - rewrite decide_False by (intros [? ?]; done). apply IH.
Qed.

Lemma consider_feasible (ws : list Warehouse) (o : Order) (b : BestAllocation)
    (s : StockRecord) :
  feasible o s ->
  consider ws o b s =
    (k ← candidate_cost ws o s;
     if (k <? ba_cost b)%float then
       d ← candidate_distance ws o s;
       Ok {| ba_warehouse_id := Some (inv_warehouse_id s);
             ba_cost := k; ba_distance := d |}
     else Ok b).
Proof.
  intros [_ Hq]. unfold consider, candidate_cost, candidate_distance,
    candidate_warehouse.
  rewrite decide_True by done.
  destruct (lookup_warehouse ws (inv_warehouse_id s)) as [w|e]; simpl; [|done].
  destruct (allocation_cost w o) as [k|e]; simpl; done.
Qed.

End Choice.

Section ChoiceLoop.

Context {RT : PyRuntime}.

(** What the loop over the candidates returns: the best allocation it
    started with when no candidate is priced below it, or else the first
    of the candidates of least cost. *)
Lemma for_rows_selection (ws : list Warehouse) (o : Order)
    (cands : list StockRecord) :
  Forall (feasible o) cands ->
  forall b best,
    for_rows ws o b cands = Ok best ->
    (best = b /\ none_below ws o (ba_cost b) cands)
    \/ (exists c k d,
          first_cheapest ws o cands c k
          /\ candidate_distance ws o c = Ok d
          /\ (k <? ba_cost b)%float = true
          /\ best = {| ba_warehouse_id := Some (inv_warehouse_id c);
                       ba_cost := k; ba_distance := d |}).
Proof.
  induction 1 as [|c0 cands Hf Hfs IH]; intros b best; simpl.
  - intros [= <-]. left. split; [done|]. constructor.
  - rewrite (consider_feasible _ _ _ _ Hf).
    destruct (candidate_cost ws o c0) as [k0|e] eqn:Ek0; simpl; [|done].
    destruct (k0 <? ba_cost b)%float eqn:Elt.
    + destruct (candidate_distance ws o c0) as [d0|e] eqn:Ed0; simpl; [|done].
      intros Hrun. apply IH in Hrun as [[-> Hnone]|(c & k & d & Hfc & Hd & Hlt & ->)].
      * right. exists c0, k0, d0. split; [|done].
        exists [], cands. simpl. split; [done|]. split; [done|].
        split; [constructor|done].
      * right. simpl in Hlt. exists c, k, d.
        destruct Hfc as (pre & post & -> & Hk & Hpre & Hpost).
        split; [|split; [done|split; [|done]]].
        -- exists (c0 :: pre), post. split; [done|]. split; [done|].
           split; [|done]. constructor; [|done].
           exists k0. split; [done|]. by apply FloatOrder.ltb_not_leb.
        -- by apply FloatOrder.ltb_trans with k0.
    + intros Hrun. apply IH in Hrun as [[-> Hnone]|(c & k & d & Hfc & Hd & Hlt & ->)].
      * left. split; [done|]. constructor; [|done]. eauto.
      * right. exists c, k, d.
        destruct Hfc as (pre & post & -> & Hk & Hpre & Hpost).
        split; [|done].
        exists (c0 :: pre), post. split; [done|]. split; [done|].
        split; [|done]. constructor; [|done].
        exists k0. split; [done|].
        destruct (k0 <=? k)%float eqn:Ele; [|done].
        by rewrite (FloatOrder.leb_ltb_trans _ _ _ Ele Hlt) in Elt.
Qed.

(** The loop returns as soon as every candidate has a warehouse row. *)
Lemma for_rows_returns (ws : list Warehouse) (o : Order)
    (cands : list StockRecord) :
  Forall (feasible o) cands ->
  Forall (known ws) cands ->
  forall b, exists best, for_rows ws o b cands = Ok best.
Proof.
  induction 1 as [|c0 cands Hf Hfs IH]; intros Hk b; simpl; [eauto|].
  apply Forall_cons in Hk as [Hk0 Hk].
  rewrite (consider_feasible _ _ _ _ Hf).
  destruct (lookup_warehouse_known _ _ Hk0) as [w Hw].
  destruct (candidate_cost_formula ws o c0 w Hw) as (d & _ & Hd & ->). simpl.
  destruct (_ <? _)%float; simpl; [rewrite Hd; simpl|]; by apply IH.
Qed.

(** A candidate without a warehouse row makes the loop raise. *)
Lemma for_rows_unknown_warehouse (ws : list Warehouse) (o : Order)
    (cands : list StockRecord) (c : StockRecord) :
  Forall (feasible o) cands ->
  c ∈ cands ->
  (forall w, w ∈ ws -> warehouse_id w <> inv_warehouse_id c) ->
  forall b, exists e, for_rows ws o b cands = Raise e.
Proof.
  induction 1 as [|c0 cands Hf Hfs IH]; intros Hin Hno b.
  - by apply elem_of_nil in Hin.
  - simpl. rewrite (consider_feasible _ _ _ _ Hf).
    apply elem_of_cons in Hin as [<-|Hin].
    + unfold candidate_cost, candidate_warehouse.
      rewrite (lookup_warehouse_unknown _ _ Hno). simpl. eauto.
    + destruct (candidate_cost ws o c0) as [k0|e]; simpl; [|eauto].
      destruct (_ <? _)%float; simpl; [|by apply IH].
      destruct (candidate_distance ws o c0); simpl; [by apply IH|eauto].
Qed.

Lemma candidates_feasible (o : Order) (rows : list StockRecord) :
  Forall (feasible o) (candidates o rows).
Proof.
  apply Forall_forall. intros c Hc.
  by apply list_elem_of_filter in Hc as [? ?].
Qed.

End ChoiceLoop.

Section Commit.

Context {RT : PyRuntime}.

(** The two ways the body of the loop over the orders goes when the
    selection returns. *)
Lemma allocate_rows_selection (ws : list Warehouse) (rows : list StockRecord)
    (res : Results) (o : Order) (best : BestAllocation) :
  for_rows ws o no_allocation (candidates o rows) = Ok best ->
  (none_below ws o PrimFloat.infinity (candidates o rows)
   /\ allocate_rows ws rows res o = (rows, Ok (add_unfulfilled res o)))
  \/ (exists c k d,
        first_cheapest ws o (candidates o rows) c k
        /\ candidate_distance ws o c = Ok d
        /\ (k <? PrimFloat.infinity)%float = true
        /\ allocate_rows ws rows res o =
             (deplete (inv_warehouse_id c) (product_id o) (quantity o) rows,
              total ← py_add (total_cost res) (PyFloat k);
              Ok (add_allocation res (inv_warehouse_id c) o
                    {| ba_warehouse_id := Some (inv_warehouse_id c);
                       ba_cost := k; ba_distance := d |} total))).
Proof.
  intros Hrun. unfold allocate_rows. rewrite for_rows_candidates, Hrun.
  destruct (for_rows_selection ws o _ (candidates_feasible o rows) _ _ Hrun)
    as [[-> Hnone]|(c & k & d & Hfc & Hd & Hlt & ->)].
  - left. done.
  - right. exists c, k, d. done.
Qed.

(** C1 (as amended): the candidates of an order are the rows of the
    working copy that hold its product in a quantity that covers it; each
    is priced at distance * 10 + storage cost * 0.1, the distance being
    the Haversine formula with radius 6371 on coordinates turned from
    degrees to radians (or infinity when that computation fails). When
    every candidate has a warehouse row, the order is committed to the
    first of the candidates of least cost provided that cost is below
    infinity: its stock is depleted and the entry is filed under its
    warehouse. When no candidate is priced below infinity the order is
    recorded as unfulfilled and the stock is left as it is. *)
Theorem allocation_choice (ws : list Warehouse) (l : loc) (res : Results)
    (o : Order) (h : heap) (rows : list StockRecord) :
  h !! l = Some (DataFrame rows) ->
  Forall (known ws) (candidates o rows) ->
  (forall c, c ∈ candidates o rows <->
             c ∈ rows /\ inv_product_id c = product_id o
             /\ quantity o <= current_stock c)
  /\ (forall c, c ∈ candidates o rows ->
        exists w d, candidate_warehouse ws c = Ok w
          /\ calculate_distance w o = Ok d
          /\ candidate_cost ws o c =
               Ok (d * 10 + storage_cost w * one_tenth)%float)
  /\ (forall w lat1 lon1 lat2 lon2,
        py_float (latitude w) = Ok lat1 -> py_float (longitude w) = Ok lon1 ->
        py_float (delivery_latitude o) = Ok lat2 ->
        py_float (delivery_longitude o) = Ok lon2 ->
        haversine_finite lat1 lon1 lat2 lon2 ->
        calculate_distance w o = Ok (haversine_km lat1 lon1 lat2 lon2))
  /\ ((exists c k d,
         first_cheapest ws o (candidates o rows) c k
         /\ candidate_distance ws o c = Ok d
         /\ (k <? PrimFloat.infinity)%float = true
         /\ allocate ws l res o h =
              (<[l := DataFrame
                        (deplete (inv_warehouse_id c) (product_id o)
                           (quantity o) rows)]> h,
               total ← py_add (total_cost res) (PyFloat k);
               Ok (add_allocation res (inv_warehouse_id c) o
                     {| ba_warehouse_id := Some (inv_warehouse_id c);
                        ba_cost := k; ba_distance := d |} total)))
      \/ (none_below ws o PrimFloat.infinity (candidates o rows)
          /\ allocate ws l res o h = (h, Ok (add_unfulfilled res o)))).
Proof.
  intros Hl Hknown. split; [|split; [|split]].
  - intros c. unfold candidates. rewrite list_elem_of_filter.
    unfold feasible. tauto.
  - intros c Hc.
    assert (exists w, w ∈ ws /\ warehouse_id w = inv_warehouse_id c) as Hw
      by by eapply Forall_forall in Hknown.
    apply lookup_warehouse_known in Hw as [w Hw]. exists w.
    destruct (candidate_cost_formula ws o c w Hw) as (d & ? & ? & ?).
    by exists d.
  - intros w lat1 lon1 lat2 lon2. apply calculate_distance_haversine.
  - destruct (for_rows_returns ws o _ (candidates_feasible o rows) Hknown
                no_allocation) as [best Hbest].
    rewrite (allocate_rows_spec _ _ _ _ _ _ Hl).
    destruct (allocate_rows_selection ws rows res o best Hbest)
      as [[Hnone ->]|(c & k & d & Hfc & Hd & Hlt & ->)]; simpl.
    + right. split; [done|]. by rewrite insert_id.
    + left. exists c, k, d. done.
Qed.

End Commit.

(** ** The plan *)

Section Plan.

Lemma concat_perm {A} (l1 l2 : list (list A)) :
  l1 ≡ₚ l2 -> concat l1 ≡ₚ concat l2.
Proof.
  induction 1 as [|x l1 l2 _ IH|x y l|l1 l2 l3 _ IH1 _ IH2]; simpl.
  - done.
  - by rewrite IH.
  - rewrite !(assoc_L (++)). by rewrite (Permutation_app_comm y x).
  - by rewrite IH1.
Qed.

Lemma entries_of_append (plan : gmap string (list AllocationEntry))
    (wid : string) (e : AllocationEntry) :
  entries_of (plan_append plan wid e) wid = entries_of plan wid ++ [e].
Proof. unfold entries_of, plan_append. by rewrite lookup_insert_eq. Qed.

Lemma entries_of_append_ne (plan : gmap string (list AllocationEntry))
    (wid wid' : string) (e : AllocationEntry) :
  wid <> wid' ->
  entries_of (plan_append plan wid e) wid' = entries_of plan wid'.
Proof. intros Hne. unfold entries_of, plan_append. by rewrite lookup_insert_ne. Qed.

Lemma plan_entries_append (plan : gmap string (list AllocationEntry))
    (wid : string) (e : AllocationEntry) :
  plan_entries (plan_append plan wid e) ≡ₚ e :: plan_entries plan.
Proof.
  unfold plan_entries, plan_append.
  destruct (plan !! wid) as [l|] eqn:E; simpl.
  - rewrite <- insert_delete_eq.
    rewrite (concat_perm _ _
               (fmap_Permutation snd _ _
                  (map_to_list_insert (delete wid plan) wid (l ++ [e])
                     (lookup_delete_eq plan wid)))).
    rewrite <- (concat_perm _ _
                  (fmap_Permutation snd _ _ (map_to_list_delete plan wid l E))).
    simpl. rewrite <- (assoc_L (++)).
    rewrite (Permutation_app_comm l). simpl.
    by rewrite (Permutation_app_comm _ l).
  - rewrite (concat_perm _ _
               (fmap_Permutation snd _ _ (map_to_list_insert plan wid [e] E))).
    done.
Qed.

Lemma plan_entries_empty : plan_entries ∅ = [].
Proof. unfold plan_entries. by rewrite map_to_list_empty. Qed.

End Plan.

(** ** Every order is allocated or unfulfilled *)

Section Partition.

Context {RT : PyRuntime}.

(** The two ways the body of the loop goes when it returns. *)
Lemma allocate_rows_ok (ws : list Warehouse) (rows rows' : list StockRecord)
    (res res' : Results) (o : Order) :
  allocate_rows ws rows res o = (rows', Ok res') ->
  (none_below ws o PrimFloat.infinity (candidates o rows)
   /\ rows' = rows /\ res' = add_unfulfilled res o)
  \/ (exists c k d total,
        first_cheapest ws o (candidates o rows) c k
        /\ candidate_distance ws o c = Ok d
        /\ (k <? PrimFloat.infinity)%float = true
        /\ py_add (total_cost res) (PyFloat k) = Ok total
        /\ rows' = deplete (inv_warehouse_id c) (product_id o) (quantity o) rows
        /\ res' = add_allocation res (inv_warehouse_id c) o
                    {| ba_warehouse_id := Some (inv_warehouse_id c);
                       ba_cost := k; ba_distance := d |} total).
Proof.
  destruct (for_rows ws o no_allocation (candidates o rows)) as [best|e] eqn:Hrun.
  - destruct (allocate_rows_selection ws rows res o best Hrun)
      as [[Hnone ->]|(c & k & d & Hfc & Hd & Hlt & ->)].
    + intros [= <- <-]. by left.
    + destruct (py_add (total_cost res) (PyFloat k)) as [total|e] eqn:Eadd;
        simpl; [|done].
      intros [= <- <-]. right. by exists c, k, d, total.
  - unfold allocate_rows. rewrite for_rows_candidates, Hrun. done.
Qed.

Lemma run_rows_partition (ws : list Warehouse) (os : list Order) :
  forall rows res rows' res',
    run_rows ws rows res os = (rows', Ok res') ->
    exists fulfilled unfulfilled,
      os ≡ₚ fulfilled ++ unfulfilled
      /\ unfulfilled_orders res' =
           unfulfilled_orders res ++ (insufficient_stock <$> unfulfilled)
      /\ entry_key <$> plan_entries (allocation_plan res') ≡ₚ
           (entry_key <$> plan_entries (allocation_plan res))
           ++ (order_key <$> fulfilled).
Proof.
  induction os as [|o os IH]; intros rows res rows' res'; simpl.
  - intros [= <- <-]. exists [], []. simpl. by rewrite !app_nil_r.
  - destruct (allocate_rows ws rows res o) as [rows1 [res1|e]] eqn:Estep; [|done].
    intros Hrun. apply IH in Hrun as (ful & unf & Hperm & Hunf & Hplan).
    apply allocate_rows_ok in Estep
      as [(_ & -> & ->)|(c & k & d & total & _ & _ & _ & _ & -> & ->)].
    + exists ful, (o :: unf). split; [|split].
      * rewrite Hperm. apply Permutation_middle.
      * rewrite Hunf. simpl. by rewrite <- (assoc_L (++)).
      * done.
    + exists (o :: ful), unf. split; [|split].
      * by rewrite Hperm.
      * done.
      * rewrite Hplan. simpl. rewrite plan_entries_append. simpl.
        change (entry_key _) with (order_key o).
        by rewrite <- Permutation_middle.
Qed.

(** The order identifiers of the unfulfilled list, and those filed under
    any one warehouse, come in the order of the loop. *)
Lemma run_rows_in_order (ws : list Warehouse) (os : list Order) :
  forall rows res rows' res',
    run_rows ws rows res os = (rows', Ok res') ->
    (exists us, unfulfilled_orders res' = unfulfilled_orders res ++ us
                /\ uo_order_id <$> us `sublist_of` order_id <$> os)
    /\ (forall wid, exists es,
          entries_of (allocation_plan res') wid =
            entries_of (allocation_plan res) wid ++ es
          /\ ae_order_id <$> es `sublist_of` order_id <$> os).
Proof.
  induction os as [|o os IH]; intros rows res rows' res'; simpl.
  - intros [= <- <-]. split; [|intros wid]; exists []; by rewrite app_nil_r.
  - destruct (allocate_rows ws rows res o) as [rows1 [res1|e]] eqn:Estep; [|done].
    intros Hrun. apply IH in Hrun as [(us & Hus & Hsub) Hplan].
    apply allocate_rows_ok in Estep
      as [(_ & -> & ->)|(c & k & d & total & _ & _ & _ & _ & -> & ->)].
    + split.
      * exists (insufficient_stock o :: us). split.
        -- rewrite Hus. simpl. by rewrite <- (assoc_L (++)).
        -- simpl. by apply sublist_skip.
      * intros wid. destruct (Hplan wid) as (es & Hes & Hsubes).
        exists es. split; [done|]. by apply sublist_cons.
    + split.
      * exists us. split; [done|]. by apply sublist_cons.
      * intros wid. destruct (Hplan wid) as (es & Hes & Hsubes).
        simpl in Hes.
        destruct (decide (inv_warehouse_id c = wid)) as [<-|Hne].
        -- rewrite entries_of_append in Hes. eexists (_ :: es). split.
           ++ rewrite Hes. by rewrite <- (assoc_L (++)).
           ++ simpl. by apply sublist_skip.
        -- rewrite entries_of_append_ne in Hes by done.
           exists es. split; [done|]. by apply sublist_cons.
Qed.

Lemma optimize_ok (self : InventoryOptimizer) (t0 t1 : float)
    (ws : list Warehouse) (os : list Order) (inv : loc) (h h' : heap)
    (res : Results) :
  optimize self t0 t1 ws os inv h = (h', Ok res) ->
  exists rows rows' res0,
    h !! inv = Some (DataFrame rows)
    /\ run_rows ws rows empty_results (sort_values os) = (rows', Ok res0)
    /\ h' = <[fresh (dom h) := DataFrame rows']> h
    /\ res = completed res0 (t1 - t0).
Proof.
  destruct (optimize_cases self t0 t1 ws os inv h) as [(rows & Hinv & ->)|[_ ->]];
    [|done].
  destruct (run_rows ws rows empty_results (sort_values os))
    as [rows' [res0|e]] eqn:Erun; simpl; [|done].
  intros [= <- <-]. by exists rows, rows', res0.
Qed.

(** C3: after a run that returns, the input orders split into those
    fulfilled and those unfulfilled: the entries of the allocation plan
    are, one for one, the fulfilled orders (same identifier, same
    quantity), the unfulfilled list holds one entry per unfulfilled order,
    and that entry carries the order's identifier and quantity and the
    reason "Insufficient stock for product " followed by the order's
    product identifier. *)
Theorem orders_partitioned (self : InventoryOptimizer) (t0 t1 : float)
    (ws : list Warehouse) (os : list Order) (inv : loc) (h h' : heap)
    (res : Results) :
  optimize self t0 t1 ws os inv h = (h', Ok res) ->
  exists fulfilled unfulfilled : list Order,
    os ≡ₚ fulfilled ++ unfulfilled
    /\ entry_key <$> plan_entries (allocation_plan res) ≡ₚ order_key <$> fulfilled
    /\ unfulfilled_orders res = insufficient_stock <$> unfulfilled
    /\ Forall2 (fun u o =>
                  uo_order_id u = order_id o /\ uo_quantity u = quantity o
                  /\ reason u = "Insufficient stock for product " +:+ product_id o)
         (unfulfilled_orders res) unfulfilled.
Proof.
  intros Hopt.
  apply optimize_ok in Hopt as (rows & rows' & res0 & _ & Hrun & _ & ->).
  apply run_rows_partition in Hrun as (ful & unf & Hperm & Hunf & Hplan).
  exists ful, unf. simpl in *. rewrite plan_entries_empty in Hplan.
  split; [by rewrite <- Hperm, sort_values_perm|].
  split; [done|]. split; [done|].
  rewrite Hunf. apply Forall2_fmap_l, Forall_Forall2_diag, Forall_forall.
  done.
Qed.

End Partition.

Section Processing.

Context {RT : PyRuntime}.

(** C4: the sequence [optimize] works through is the input sorted on
    two keys: it is a rearrangement of the input, any order in it precedes
    every later one (strictly earlier status, or equal status and a
    quantity at least as large), and orders that tie on both keys keep
    their input order. The loop runs over that sequence, so that the
    unfulfilled list, and the entries filed under any warehouse, follow
    it. *)
Theorem processing_order (self : InventoryOptimizer) (t0 t1 : float)
    (ws : list Warehouse) (os : list Order) (inv : loc) (h : heap) :
  sort_values os ≡ₚ os
  /\ StronglySorted precedes (sort_values os)
  /\ (forall k, filter (ties_with k) (sort_values os) = filter (ties_with k) os)
  /\ (forall rows,
        h !! inv = Some (DataFrame rows) ->
        (optimize self t0 t1 ws os inv h).2 =
          finish (t1 - t0)
            (run_rows ws rows empty_results (sort_values os)).2)
  /\ (forall h' res,
        optimize self t0 t1 ws os inv h = (h', Ok res) ->
        uo_order_id <$> unfulfilled_orders res
          `sublist_of` order_id <$> sort_values os
        /\ forall wid,
             ae_order_id <$> entries_of (allocation_plan res) wid
               `sublist_of` order_id <$> sort_values os).
Proof.
  split; [apply sort_values_perm|].
  split; [apply sort_values_sorted|].
  split; [intros k; apply sort_values_stable|].
  split.
  - intros rows Hinv. by rewrite (optimize_rows _ _ _ _ _ _ _ rows Hinv).
  - intros h' res Hopt.
    apply optimize_ok in Hopt as (rows & rows' & res0 & _ & Hrun & _ & ->).
    apply run_rows_in_order in Hrun as [(us & Hus & Hsub) Hplan].
    simpl in *. split; [by rewrite Hus|].
    intros wid. destruct (Hplan wid) as (es & Hes & Hsubes).
    rewrite Hes. unfold entries_of. by rewrite lookup_empty.
Qed.

End Processing.

(** ** A stock record without a warehouse row *)

Section MissingWarehouse.

Context {RT : PyRuntime}.

Lemma first_cheapest_known (ws : list Warehouse) (o : Order)
    (cands : list StockRecord) (c : StockRecord) (k : float) :
  first_cheapest ws o cands c k ->
  c ∈ cands /\ exists w, w ∈ ws /\ warehouse_id w = inv_warehouse_id c.
Proof.
  intros (pre & post & -> & Hk & _). split; [set_solver|].
  unfold candidate_cost, candidate_warehouse in Hk.
  destruct (lookup_warehouse ws (inv_warehouse_id c)) as [w|e] eqn:Ew; [|done].
  exists w. by apply lookup_warehouse_ok.
Qed.

Lemma deplete_other (wid pid : string) (q : Z) (rows : list StockRecord)
    (s : StockRecord) :
  inv_warehouse_id s <> wid -> s ∈ rows -> s ∈ deplete wid pid q rows.
Proof.
  intros Hne Hin. unfold deplete. apply list_elem_of_fmap.
  exists s. split; [|done]. rewrite decide_False; [done|]. by intros [? _].
Qed.

Lemma run_rows_missing_warehouse (ws : list Warehouse) (o : Order)
    (s : StockRecord) (os : list Order) :
  feasible o s ->
  (forall w, w ∈ ws -> warehouse_id w <> inv_warehouse_id s) ->
  o ∈ os ->
  forall rows res,
    s ∈ rows -> exists rows' e, run_rows ws rows res os = (rows', Raise e).
Proof.
  intros Hf Hno. induction os as [|o' os IH]; intros Hin rows res Hs.
  - by apply elem_of_nil in Hin.
  - simpl. destruct (allocate_rows ws rows res o') as [rows1 [res1|e]] eqn:Estep;
      [|eauto].
    apply elem_of_cons in Hin as [<-|Hin].
    + exfalso.
      assert (s ∈ candidates o rows) as Hc by by apply list_elem_of_filter.
      destruct (for_rows_unknown_warehouse ws o _ s (candidates_feasible o rows)
                  Hc Hno no_allocation) as [e He].
      unfold allocate_rows in Estep.
      rewrite for_rows_candidates, He in Estep. done.
    + apply IH; [done|].
      apply allocate_rows_ok in Estep
        as [(_ & -> & _)|(c & k & d & total & Hfc & _ & _ & _ & -> & _)]; [done|].
      apply first_cheapest_known in Hfc as (_ & w & Hw & Hid).
      apply deplete_other; [|done].
      intros Heq. apply (Hno w Hw). congruence.
Qed.

(** C9: when the stock holds a record that covers some order of the
    input and whose warehouse identifier is on no row of [warehouses],
    [optimize] raises: the caller gets the [ValueError] that wraps the
    failure, and no plan. *)
Theorem missing_warehouse_fails (self : InventoryOptimizer) (t0 t1 : float)
    (ws : list Warehouse) (os : list Order) (inv : loc) (h : heap)
    (rows : list StockRecord) (o : Order) (s : StockRecord) :
  h !! inv = Some (DataFrame rows) ->
  o ∈ os -> s ∈ rows ->
  inv_product_id s = product_id o -> quantity o <= current_stock s ->
  (forall w, w ∈ ws -> warehouse_id w <> inv_warehouse_id s) ->
  exists e,
    (optimize self t0 t1 ws os inv h).2 =
      Raise (ValueError ("Optimization error: " +:+ str e)).
Proof.
  intros Hinv Ho Hs Hp Hq Hno.
  rewrite (optimize_rows _ _ _ _ _ _ _ rows Hinv). simpl.
  assert (o ∈ sort_values os) as Ho' by by rewrite sort_values_perm.
  destruct (run_rows_missing_warehouse ws o s (sort_values os) (conj Hp Hq)
              Hno Ho' rows empty_results Hs) as (rows' & e & ->).
  by exists e.
Qed.

End MissingWarehouse.

(** ** Stock depletion *)

Section Depletion.

Context {RT : PyRuntime}.

Lemma wrap64_small (z : Z) : 0 <= z <= int64_max -> wrap64 z = z.
Proof.
  unfold wrap64, int64_max. intros Hz.
  rewrite Z.mod_small; lia.
Qed.

Lemma Z_sum_app (l1 l2 : list Z) : Z_sum (l1 ++ l2) = Z_sum l1 + Z_sum l2.
Proof. induction l1 as [|x l1 IH]; simpl; [done|]. rewrite IH. lia. Qed.

Lemma product_of_unique (os : list Order) (o : Order) :
  NoDup (order_id <$> os) -> o ∈ os ->
  product_of os (order_id o) = Some (product_id o).
Proof.
  unfold product_of. induction os as [|o' os IH]; intros Hnd Hin.
  - by apply elem_of_nil in Hin.
  - rewrite fmap_cons in Hnd. apply NoDup_cons in Hnd as [Hnotin Hnd].
    rewrite filter_cons. apply elem_of_cons in Hin as [<-|Hin].
    + by rewrite decide_True.
    + rewrite decide_False; [by apply IH|].
      intros Heq. apply Hnotin. rewrite Heq. by apply list_elem_of_fmap_2.
Qed.

Lemma allocated_against_allocation (os : list Order) (res : Results)
    (wid : string) (o : Order) (best : BestAllocation) (total : pyval)
    (w p : string) :
  allocated_against os (add_allocation res wid o best total) w p =
    allocated_against os res w p
    + (if decide (wid = w /\ product_of os (order_id o) = Some p)
       then quantity o else 0).
Proof.
  unfold allocated_against. simpl.
  destruct (decide (wid = w)) as [->|Hne].
  - rewrite entries_of_append, filter_app, fmap_app, Z_sum_app.
    f_equal. rewrite filter_cons, filter_nil. simpl.
    destruct (decide (product_of os (order_id o) = Some p)).
    + rewrite decide_True by done. simpl. lia.
    + rewrite decide_False by (by intros [_ ?]). done.
  - rewrite entries_of_append_ne by done.
    rewrite decide_False by (by intros [? _]). lia.
Qed.

Lemma stock_key_unique (rows : list StockRecord) (s c : StockRecord) :
  NoDup (stock_key <$> rows) -> s ∈ rows -> c ∈ rows ->
  stock_key s = stock_key c -> s = c.
Proof.
  induction rows as [|r rows IH]; intros Hnd Hs Hc Hk.
  - by apply elem_of_nil in Hs.
  - rewrite fmap_cons in Hnd. apply NoDup_cons in Hnd as [Hnotin Hnd].
    apply elem_of_cons in Hs as [->|Hs]; apply elem_of_cons in Hc as [->|Hc].
    + done.
    + destruct Hnotin. rewrite Hk. by apply list_elem_of_fmap_2.
    + destruct Hnotin. rewrite <- Hk. by apply list_elem_of_fmap_2.
    + by apply IH.
Qed.

Lemma deplete_keys (wid pid : string) (q : Z) (rows : list StockRecord) :
  stock_key <$> deplete wid pid q rows = stock_key <$> rows.
Proof.
  unfold deplete. rewrite <- list_fmap_compose. apply list_fmap_ext.
  intros i s _. simpl. by case_decide.
Qed.

(** One allocation, read on the rows. *)
Lemma deplete_depleted (os : list Order) (res : Results) (o : Order)
    (c : StockRecord) (best : BestAllocation) (total : pyval)
    (rows : list StockRecord) :
  NoDup (stock_key <$> rows) ->
  Forall (fun s => current_stock s <= int64_max) rows ->
  c ∈ candidates o rows ->
  0 <= quantity o ->
  product_of os (order_id o) = Some (product_id o) ->
  Forall2 (depleted os res (add_allocation res (inv_warehouse_id c) o best total))
    rows (deplete (inv_warehouse_id c) (product_id o) (quantity o) rows).
Proof.
  intros Hnd Hmax Hc Hq Hprod.
  apply list_elem_of_filter in Hc as [[Hcp Hcq] Hc].
  unfold deplete. apply Forall2_fmap_r, Forall_Forall2_diag, Forall_forall.
  intros s Hs. unfold compose, depleted. cbv beta.
  rewrite allocated_against_allocation, Hprod.
  assert (current_stock s <= int64_max) as Hsmax
    by by eapply Forall_forall in Hmax.
  destruct (decide (inv_warehouse_id s = inv_warehouse_id c
                    /\ inv_product_id s = product_id o)) as [[Hw Hp]|Hn].
  - rewrite !decide_True by (split; congruence).
    assert (s = c) as ->.
    { apply (stock_key_unique rows); [done..|].
      unfold stock_key. congruence. }
    unfold sub_current_stock, stock_key. simpl.
    rewrite wrap64_small by lia. split; [done|]. lia.
  - rewrite !decide_False by (intros [? ?]; apply Hn; split; congruence).
    split; [done|]. lia.
Qed.

Lemma depleted_trans (os : list Order) (res res1 res' : Results)
    (s s1 s' : StockRecord) :
  depleted os res res1 s s1 -> depleted os res1 res' s1 s' ->
  depleted os res res' s s'.
Proof.
  unfold depleted, stock_key.
  intros ([= Hw1 Hp1] & H1 & Hle1 & Hpos1) ([= Hw2 Hp2] & H2 & Hle2 & Hpos2).
  rewrite Hw1, Hp1 in H2.
  split; [congruence|]. split; [lia|]. split; lia.
Qed.

Lemma depleted_refl (os : list Order) (res : Results) (s : StockRecord) :
  depleted os res res s s.
Proof. unfold depleted. split; [done|]. split; lia. Qed.

Lemma run_rows_depletion (ws : list Warehouse) (all_os os : list Order) :
  Forall (fun o => 0 <= quantity o
                   /\ product_of all_os (order_id o) = Some (product_id o)) os ->
  forall rows res rows' res',
    NoDup (stock_key <$> rows) ->
    Forall (fun s => current_stock s <= int64_max) rows ->
    run_rows ws rows res os = (rows', Ok res') ->
    Forall2 (depleted all_os res res') rows rows'.
Proof.
  induction 1 as [|o os [Hq Hprod] Hos IH]; intros rows res rows' res' Hnd Hmax;
    simpl.
  - intros [= <- <-]. apply Forall_Forall2_diag, Forall_forall.
    intros s _. apply depleted_refl.
  - destruct (allocate_rows ws rows res o) as [rows1 [res1|e]] eqn:Estep; [|done].
    intros Hrun.
    apply allocate_rows_ok in Estep
      as [(_ & -> & ->)|(c & k & d & total & Hfc & _ & _ & _ & -> & ->)].
    + by apply (IH rows _ rows' res') in Hrun.
    + apply first_cheapest_known in Hfc as [Hc _].
      pose proof (deplete_depleted all_os res o c
                    {| ba_warehouse_id := Some (inv_warehouse_id c);
                       ba_cost := k; ba_distance := d |} total rows
                    Hnd Hmax Hc Hq Hprod) as Hstep.
      apply IH in Hrun.
      * eapply Forall2_trans; [|exact Hstep|exact Hrun].
        intros s s1 s'. apply depleted_trans.
      * by rewrite deplete_keys.
      * apply Forall_forall. intros s1 Hs1.
        destruct (proj1 (list_elem_of_lookup _ _) Hs1) as [i Hi].
        destruct (Forall2_lookup_r _ _ _ _ _ Hstep Hi) as (s & Hsi & _ & _ & Hle & _).
        assert (current_stock s <= int64_max)
          by (eapply Forall_forall in Hmax; [done|by eapply list_elem_of_lookup_2]).
        lia.
Qed.

(** C2: after a run that returns, on a stock with one record per
    warehouse and product and orders of non-negative quantity, each record
    of the working copy is the input record with the same warehouse and
    product, its quantity the input quantity less the sum of the
    quantities allocated against that warehouse and product; and a record
    that was not negative is not negative. (The stock fits its int64
    column, and order identifiers are unique, which is what lets an entry
    of the plan name its order.) *)
Theorem stock_depletion (self : InventoryOptimizer) (t0 t1 : float)
    (ws : list Warehouse) (os : list Order) (inv : loc) (h h' : heap)
    (rows : list StockRecord) (res : Results) :
  h !! inv = Some (DataFrame rows) ->
  NoDup (stock_key <$> rows) ->
  Forall (fun s => in_int64 (current_stock s)) rows ->
  Forall (fun o => 0 <= quantity o) os ->
  NoDup (order_id <$> os) ->
  optimize self t0 t1 ws os inv h = (h', Ok res) ->
  exists rows',
    h' !! fresh (dom h) = Some (DataFrame rows')
    /\ Forall2 (fun s s' =>
                  inv_warehouse_id s' = inv_warehouse_id s
                  /\ inv_product_id s' = inv_product_id s
                  /\ current_stock s' =
                       current_stock s
                       - allocated_against os res
                           (inv_warehouse_id s) (inv_product_id s)
                  /\ (0 <= current_stock s -> 0 <= current_stock s'))
         rows rows'.
Proof.
  intros Hinv Hnd Hrange Hq Hids Hopt.
  apply optimize_ok in Hopt as (rows0 & rows' & res0 & Hinv' & Hrun & -> & ->).
  rewrite Hinv in Hinv'. injection Hinv' as <-.
  exists rows'. split; [apply lookup_insert_eq|].
  apply (run_rows_depletion ws os) in Hrun; [| |done|].
  - eapply Forall2_impl; [exact Hrun|].
    intros s s' ([= Hw Hp] & Hs & _ & Hpos).
    split; [done|]. split; [done|]. split; [|done].
    rewrite Hs. unfold allocated_against at 2. simpl.
    unfold entries_of. rewrite lookup_empty. simpl.
    unfold allocated_against. simpl. lia.
  - apply Forall_forall. intros o Ho.
    assert (o ∈ os) as Ho' by by rewrite <- sort_values_perm.
    split; [by eapply Forall_forall in Hq|by apply product_of_unique].
  - eapply Forall_impl; [exact Hrange|]. intros s [_ ?]. done.
Qed.

End Depletion.

(** ** The run returns when every stock record has a warehouse row *)

Section Returns.

Context {RT : PyRuntime}.

Lemma deplete_known (ws : list Warehouse) (wid pid : string) (q : Z)
    (rows : list StockRecord) :
  Forall (known ws) rows -> Forall (known ws) (deplete wid pid q rows).
Proof.
  intros Hk. unfold deplete. apply Forall_fmap.
  eapply Forall_impl; [exact Hk|]. intros s Hs. simpl. by case_decide.
Qed.

Lemma py_add_running_total (total : pyval) (k : float) :
  total = PyInt 0 \/ (exists f, total = PyFloat f) ->
  exists f, py_add total (PyFloat k) = Ok (PyFloat f).
Proof. intros [->|[f ->]]; simpl; eauto. Qed.

Lemma run_rows_returns (ws : list Warehouse) (os : list Order) :
  forall rows res,
    Forall (known ws) rows ->
    total_cost res = PyInt 0 \/ (exists f, total_cost res = PyFloat f) ->
    exists rows' res', run_rows ws rows res os = (rows', Ok res').
Proof.
  induction os as [|o os IH]; intros rows res Hk Ht; simpl; [eauto|].
  assert (Forall (known ws) (candidates o rows)) as Hkc.
  { apply Forall_forall. intros c Hc.
    apply list_elem_of_filter in Hc as [_ Hc].
    by eapply Forall_forall in Hk. }
  destruct (for_rows_returns ws o _ (candidates_feasible o rows) Hkc
              no_allocation) as [best Hbest].
  destruct (allocate_rows_selection ws rows res o best Hbest)
    as [[_ ->]|(c & k & d & _ & _ & _ & ->)].
  - by apply IH.
  - destruct (py_add_running_total _ k Ht) as [f ->]. simpl.
    apply IH; [by apply deplete_known|]. simpl. eauto.
Qed.

Lemma optimize_returns (self : InventoryOptimizer) (t0 t1 : float)
    (ws : list Warehouse) (os : list Order) (inv : loc) (h : heap)
    (rows : list StockRecord) :
  h !! inv = Some (DataFrame rows) ->
  Forall (known ws) rows ->
  exists h' res, optimize self t0 t1 ws os inv h = (h', Ok res).
Proof.
  intros Hinv Hk. rewrite (optimize_rows _ _ _ _ _ _ _ rows Hinv).
  destruct (run_rows_returns ws (sort_values os) rows empty_results Hk)
    as (rows' & res' & ->); [by left|].
  simpl. eauto.
Qed.

End Returns.

(** ** The properties at work on the fixtures *)

Section Instances.

Import Fixtures Runs.

Local Existing Instance origin_runtime.

(** [allocation_choice] on two warehouses that both cover O1: the order
    goes to one of them, or to none. *)
Lemma allocation_choice_witness :
  let ws := [W1; W2] in
  let rows := [S1; S2] in
  store rows !! 1%positive = Some (DataFrame rows)
  /\ Forall (known ws) (candidates O1 rows)
  /\ ((exists c k d,
         first_cheapest ws O1 (candidates O1 rows) c k
         /\ candidate_distance ws O1 c = Ok d
         /\ (k <? PrimFloat.infinity)%float = true
         /\ allocate ws 1%positive empty_results O1 (store rows) =
              (<[1%positive := DataFrame
                   (deplete (inv_warehouse_id c) (product_id O1)
                      (quantity O1) rows)]> (store rows),
               total ← py_add (total_cost empty_results) (PyFloat k);
               Ok (add_allocation empty_results (inv_warehouse_id c) O1
                     {| ba_warehouse_id := Some (inv_warehouse_id c);
                        ba_cost := k; ba_distance := d |} total)))
      \/ (none_below ws O1 PrimFloat.infinity (candidates O1 rows)
          /\ allocate ws 1%positive empty_results O1 (store rows) =
               (store rows, Ok (add_unfulfilled empty_results O1)))).
Proof.
  cbv zeta.
  assert (store [S1; S2] !! 1%positive = Some (DataFrame [S1; S2])) as Hl
    by reflexivity.
  assert (Forall (known [W1; W2]) (candidates O1 [S1; S2])) as Hk.
  { change (candidates O1 [S1; S2]) with [S1; S2].
    repeat apply Forall_cons_2; [| |apply Forall_nil_2].
    - exists W1. split; [apply list_elem_of_here|reflexivity].
    - exists W2. split; [apply list_elem_of_further, list_elem_of_here|reflexivity]. }
  split; [exact Hl|]. split; [exact Hk|].
  exact (proj2 (proj2 (proj2
    (allocation_choice [W1; W2] 1%positive empty_results O1 (store [S1; S2])
       [S1; S2] Hl Hk)))).
Defined.

(** An order whose delivery latitude is missing, against a stock record
    that covers it: the record is a candidate, the only one and so the one
    of least cost, its cost is infinity, and the order is not committed to
    it but recorded as unfulfilled. *)
Lemma allocation_choice_counterexample :
  candidates O1_no_latitude [S1] = [S1]
  /\ candidate_cost [W1] O1_no_latitude S1 = Ok PrimFloat.infinity
  /\ allocate [W1] 1%positive empty_results O1_no_latitude (store [S1]) =
       (store [S1], Ok (add_unfulfilled empty_results O1_no_latitude))
  /\ no_latitude.2 =
       Ok {| allocation_plan := ∅;
             warehouse_utilization := ∅;
             unfulfilled_orders :=
               [{| uo_order_id := "O1"; uo_quantity := 500;
                   reason := "Insufficient stock for product P1" |}];
             total_cost := PyInt 0;
             solving_time := PyFloat 1;
             r_status := "Completed" |}.
Proof. repeat split; vm_compute; reflexivity. Qed.

(** One warehouse that covers the one order: the order is allocated at
    distance 0 and cost 0 * 10 + 100 * 0.1 = 10, and the copy is depleted
    while the caller's stock is as it was. *)
Example run_exact_stock :
  optimize init 0 1 [W1] [O1] 1%positive (store [S1]) =
    (<[2%positive := DataFrame
         [{| inv_warehouse_id := "W1"; inv_product_id := "P1";
             current_stock := 0 |}]]> (store [S1]),
     Ok {| allocation_plan :=
             {[ "W1" := [{| ae_order_id := "O1"; ae_quantity := 500;
                            ae_cost := 10; ae_distance := 0 |}] ]};
           warehouse_utilization := ∅;
           unfulfilled_orders := [];
           total_cost := PyFloat 10;
           solving_time := PyFloat 1;
           r_status := "Completed" |}).
Proof. vm_compute. reflexivity. Qed.

(** The same with 400 units in stock: the order is unfulfilled, the plan is
    empty and the total cost is 0. *)
Example run_short_stock :
  (optimize init 0 1 [W1] [O1] 1%positive (store [S1_short])).2 =
    Ok {| allocation_plan := ∅;
          warehouse_utilization := ∅;
          unfulfilled_orders :=
            [{| uo_order_id := "O1"; uo_quantity := 500;
                reason := "Insufficient stock for product P1" |}];
          total_cost := PyInt 0;
          solving_time := PyFloat 1;
          r_status := "Completed" |}.
Proof. vm_compute. reflexivity. Qed.

(** Two orders of one product that together exceed the stock: the larger
    is processed first and fulfilled, the other is unfulfilled. *)
Example run_two_orders_short :
  short_stock.2 =
    Ok {| allocation_plan :=
            {[ "W1" := [{| ae_order_id := "O1"; ae_quantity := 500;
                           ae_cost := 10; ae_distance := 0 |}] ]};
          warehouse_utilization := ∅;
          unfulfilled_orders :=
            [{| uo_order_id := "O2"; uo_quantity := 300;
                reason := "Insufficient stock for product P1" |}];
          total_cost := PyFloat 10;
          solving_time := PyFloat 1;
          r_status := "Completed" |}.
Proof. vm_compute. reflexivity. Qed.

(** With the decrement on rows that share a warehouse and a product, a row
    that did not cover the order goes negative: one record per pair is
    what [stock_depletion] needs. *)
Example deplete_duplicate_rows :
  deplete "W1" "P1" 500 [S1; S1_short] =
    [{| inv_warehouse_id := "W1"; inv_product_id := "P1"; current_stock := 0 |};
     {| inv_warehouse_id := "W1"; inv_product_id := "P1";
        current_stock := -100 |}].
Proof. reflexivity. Qed.

(** Of two warehouses that cover the order the cheaper is chosen, though
    its stock record comes second. *)
Example choice_cheapest :
  for_rows [W1; W2] O1 no_allocation [S1; S2] =
    Ok {| ba_warehouse_id := Some "W2"; ba_cost := 1; ba_distance := 0 |}.
Proof. vm_compute. reflexivity. Qed.

(** Of two warehouses at the same cost, the one whose stock record comes
    first is chosen. *)
Example choice_tie_first :
  for_rows [W1; W3] O1 no_allocation [S1; S3] =
    Ok {| ba_warehouse_id := Some "W1"; ba_cost := 10; ba_distance := 0 |}
  /\ for_rows [W1; W3] O1 no_allocation [S3; S1] =
       Ok {| ba_warehouse_id := Some "W3"; ba_cost := 10; ba_distance := 0 |}.
Proof. split; vm_compute; reflexivity. Qed.

(** [stock_depletion] on two orders served by two warehouses. *)
Lemma stock_depletion_witness :
  exists rows',
    two_orders.1 !! fresh (dom (store [S1; S2])) = Some (DataFrame rows')
    /\ Forall2 (fun s s' =>
                  inv_warehouse_id s' = inv_warehouse_id s
                  /\ inv_product_id s' = inv_product_id s
                  /\ current_stock s' =
                       current_stock s
                       - allocated_against [O2; O1] (returned two_orders.2)
                           (inv_warehouse_id s) (inv_product_id s)
                  /\ (0 <= current_stock s -> 0 <= current_stock s'))
         [S1; S2] rows'.
Proof.
  apply (stock_depletion init 0 1 [W1; W2] [O2; O1] 1%positive
           (store [S1; S2]) two_orders.1 [S1; S2] (returned two_orders.2)).
  - reflexivity.
  - compute_done.
  - compute_done.
  - compute_done.
  - compute_done.
  - vm_compute. reflexivity.
Defined.

(** [orders_partitioned] on two orders of which the stock covers one. *)
Lemma orders_partitioned_witness :
  exists fulfilled unfulfilled : list Order,
    [O2; O1] ≡ₚ fulfilled ++ unfulfilled
    /\ entry_key <$> plan_entries (allocation_plan (returned short_stock.2))
         ≡ₚ order_key <$> fulfilled
    /\ unfulfilled_orders (returned short_stock.2) =
         insufficient_stock <$> unfulfilled
    /\ Forall2 (fun u o =>
                  uo_order_id u = order_id o /\ uo_quantity u = quantity o
                  /\ reason u =
                       "Insufficient stock for product " +:+ product_id o)
         (unfulfilled_orders (returned short_stock.2)) unfulfilled.
Proof.
  apply (orders_partitioned init 0 1 [W1; W2] [O2; O1] 1%positive
           (store [S1]) short_stock.1 (returned short_stock.2)).
  vm_compute. reflexivity.
Defined.

(** [summary_contents] on a plan as [optimize] leaves it. *)
Lemma summary_contents_witness :
  (forall r' h', (get_optimization_summary init r' h').1 = h')
  /\ exists total time,
      py_round (default (PyInt 0) (plan_dict !! "total_cost")) 2 = Ok total
      /\ py_round (default (PyInt 0) (plan_dict !! "solving_time")) 2 = Ok time
      /\ get_optimization_summary init 1%positive (dict_store plan_dict) =
           (dict_store plan_dict,
            Ok (<["total_cost" := total]>
                (<["solving_time" := time]>
                 (<["status" :=
                      default (PyStr "Unknown") (plan_dict !! "status")]>
                  (<["timestamp" :=
                       default PyNone (plan_dict !! "optimization_timestamp")]>
                   ∅))))).
Proof.
  apply (summary_contents init 1%positive (dict_store plan_dict) plan_dict).
  - reflexivity.
  - exact I.
  - exact I.
Defined.

(** The summary of a plan without any field: the timestamp is [None],
    neither zero nor ["Unknown"]. *)
Lemma summary_contents_counterexample :
  (get_optimization_summary init 1%positive (dict_store ∅)).2 =
    Ok (<["total_cost" := PyInt 0]>
        (<["solving_time" := PyInt 0]>
         (<["status" := PyStr "Unknown"]>
          (<["timestamp" := PyNone]> ∅))))
  /\ PyNone <> PyInt 0 /\ PyNone <> PyStr "Unknown".
Proof. split; [vm_compute; reflexivity|]. split; discriminate. Qed.

(** The summary of a plan whose total cost is a text: [round] raises and
    the summary is the empty dict. *)
Example summary_of_text_cost :
  (get_optimization_summary init 1%positive
     (dict_store {[ "total_cost" := PyStr "abc" ]})).2 = Ok ∅.
Proof. vm_compute. reflexivity. Qed.

(** The summary of a stock table: a DataFrame has a [get], which finds no
    column of these names and yields the defaults. *)
Example summary_of_dataframe :
  (get_optimization_summary init 1%positive (store [S1])).2 =
    Ok (<["total_cost" := PyInt 0]>
        (<["solving_time" := PyInt 0]>
         (<["status" := PyStr "Unknown"]>
          (<["timestamp" := PyNone]> ∅)))).
Proof. vm_compute. reflexivity. Qed.

(** [missing_warehouse_fails] on a stock with a record of W2 when W1 is
    the only warehouse. *)
Lemma missing_warehouse_fails_witness :
  exists e,
    (optimize init 0 1 [W1] [O1] 1%positive (store [S1; S2])).2 =
      Raise (ValueError ("Optimization error: " +:+ str e)).
Proof.
  apply (missing_warehouse_fails init 0 1 [W1] [O1] 1%positive
           (store [S1; S2]) [S1; S2] O1 S2).
  - reflexivity.
  - apply list_elem_of_here.
  - apply list_elem_of_further, list_elem_of_here.
  - reflexivity.
  - compute_done.
  - intros w Hw. apply list_elem_of_singleton in Hw as ->. discriminate.
Defined.

End Instances.

(** * Further properties of the engine *)

(** ** The values of the distance *)

Section DistanceValues.

Context {RT : PyRuntime}.

Lemma math_1_cases (func : float -> float) (x : float) :
  math_1 func x = Ok (func x) \/ exists e, math_1 func x = Raise e.
Proof.
  unfold math_1.
  destruct (PrimFloat.is_nan (func x) && negb (PrimFloat.is_nan x)); [eauto|].
  destruct (PrimFloat.is_infinity (func x) && PrimFloat.is_finite x); eauto.
Qed.

Lemma pow2_cases (x : float) :
  pow2 x = Ok (libm_pow x 2) \/ exists e, pow2 x = Raise e.
Proof.
  unfold pow2.
  destruct (PrimFloat.is_infinity (libm_pow x 2) && PrimFloat.is_finite x); eauto.
Qed.

Lemma atan2_cases (y x : float) :
  atan2 y x = Ok (libm_atan2 y x) \/ exists e, atan2 y x = Raise e.
Proof.
  unfold atan2.
  destruct (PrimFloat.is_nan (libm_atan2 y x) && negb (PrimFloat.is_nan y)
            && negb (PrimFloat.is_nan x)); [eauto|].
  destruct (PrimFloat.is_infinity (libm_atan2 y x) && PrimFloat.is_finite y
            && PrimFloat.is_finite x); eauto.
Qed.

(** The body of [calculate_distance], when it returns, returns the value of
    the Haversine formula on the four coordinates as doubles. *)
Lemma haversine_ok (w : Warehouse) (o : Order) (d : float) :
  haversine w o = Ok d ->
  exists lat1 lon1 lat2 lon2,
    py_float (latitude w) = Ok lat1 /\ py_float (longitude w) = Ok lon1
    /\ py_float (delivery_latitude o) = Ok lat2
    /\ py_float (delivery_longitude o) = Ok lon2
    /\ d = haversine_km lat1 lon1 lat2 lon2.
Proof.
  unfold haversine.
  destruct (py_float (latitude w)) as [lat1|]; simpl; [|done].
  destruct (py_float (longitude w)) as [lon1|]; simpl; [|done].
  destruct (py_float (delivery_latitude o)) as [lat2|]; simpl; [|done].
  destruct (py_float (delivery_longitude o)) as [lon2|]; simpl; [|done].
  unfold sin, cos, sqrt.
  destruct (math_1_cases libm_sin
              ((radians lat2 - radians lat1) / 2)) as [->|[e ->]]; simpl; [|done].
  destruct (pow2_cases (libm_sin ((radians lat2 - radians lat1) / 2)))
    as [->|[e ->]]; simpl; [|done].
  destruct (math_1_cases libm_cos (radians lat1)) as [->|[e ->]]; simpl; [|done].
  destruct (math_1_cases libm_cos (radians lat2)) as [->|[e ->]]; simpl; [|done].
  destruct (math_1_cases libm_sin
              ((radians lon2 - radians lon1) / 2)) as [->|[e ->]]; simpl; [|done].
  destruct (pow2_cases (libm_sin ((radians lon2 - radians lon1) / 2)))
    as [->|[e ->]]; simpl; [|done].
  fold (haversine_a lat1 lon1 lat2 lon2).
  destruct (math_1_cases PrimFloat.sqrt (haversine_a lat1 lon1 lat2 lon2))
    as [->|[e ->]]; simpl; [|done].
  destruct (math_1_cases PrimFloat.sqrt (1 - haversine_a lat1 lon1 lat2 lon2))
    as [->|[e ->]]; simpl; [|done].
  destruct (atan2_cases
              (PrimFloat.sqrt (haversine_a lat1 lon1 lat2 lon2))
              (PrimFloat.sqrt (1 - haversine_a lat1 lon1 lat2 lon2)))
    as [->|[e ->]]; simpl; [|done].
  intros [= <-]. by exists lat1, lon1, lat2, lon2.
Qed.

(** X1: [calculate_distance] has two kinds of results only: the Haversine
    formula applied to the four coordinates converted by [float()], or
    infinity. No coordinate is read in any other way, and no other sentinel
    is returned. *)
Theorem calculate_distance_values (w : Warehouse) (o : Order) :
  exists d,
    calculate_distance w o = Ok d
    /\ (d = PrimFloat.infinity
        \/ exists lat1 lon1 lat2 lon2,
             py_float (latitude w) = Ok lat1 /\ py_float (longitude w) = Ok lon1
             /\ py_float (delivery_latitude o) = Ok lat2
             /\ py_float (delivery_longitude o) = Ok lon2
             /\ d = haversine_km lat1 lon1 lat2 lon2).
Proof.
  unfold calculate_distance, try_except.
  destruct (haversine w o) as [d|e] eqn:E.
  - exists d. split; [done|]. right. by apply haversine_ok.
  - exists PrimFloat.infinity. split; [done|]. by left.
Qed.

End DistanceValues.

(** ** When the run returns *)

Section ReturnsExactly.

Context {RT : PyRuntime}.

Lemma lookup_warehouse_cases (ws : list Warehouse) (s : StockRecord) :
  known ws s \/ (forall w, w ∈ ws -> warehouse_id w <> inv_warehouse_id s).
Proof.
  destruct (lookup_warehouse ws (inv_warehouse_id s)) as [w|e] eqn:E.
  - left. exists w. by apply lookup_warehouse_ok.
  - right. intros w Hw Hid.
    destruct (lookup_warehouse_known ws (inv_warehouse_id s)) as [w' Hw'];
      [by exists w|]. congruence.
Qed.

Lemma deplete_elem (wid pid : string) (q : Z) (rows : list StockRecord)
    (s1 : StockRecord) :
  s1 ∈ deplete wid pid q rows ->
  s1 ∈ rows
  \/ exists s, s ∈ rows /\ inv_warehouse_id s = wid /\ inv_product_id s = pid
               /\ s1 = sub_current_stock q s.
Proof.
  unfold deplete. intros Hin. apply list_elem_of_fmap in Hin as (s & -> & Hs).
  case_decide as Hm; [|by left].
  right. exists s. by destruct Hm.
Qed.

(** The loop returns as soon as every record that covers an order still to
    come has a warehouse row. *)
Lemma run_rows_returns_covering (ws : list Warehouse) (os : list Order) :
  forall rows res,
    (forall o s, o ∈ os -> s ∈ rows -> feasible o s -> known ws s) ->
    total_cost res = PyInt 0 \/ (exists f, total_cost res = PyFloat f) ->
    exists rows' res', run_rows ws rows res os = (rows', Ok res').
Proof.
  induction os as [|o os IH]; intros rows res Hk Ht; simpl; [eauto|].
  assert (Forall (known ws) (candidates o rows)) as Hkc.
  { apply Forall_forall. intros c Hc.
    apply list_elem_of_filter in Hc as [Hf Hc].
    apply (Hk o c); [left|done..]. }
  destruct (for_rows_returns ws o _ (candidates_feasible o rows) Hkc
              no_allocation) as [best Hbest].
  destruct (allocate_rows_selection ws rows res o best Hbest)
    as [[_ ->]|(c & k & d & Hfc & _ & _ & ->)].
  - apply IH; [|done]. intros o' s Ho'. apply Hk. by right.
  - destruct (py_add_running_total _ k Ht) as [f ->]. simpl.
    apply IH; [|simpl; eauto].
    intros o' s1 Ho' Hs1 Hf.
    apply first_cheapest_known in Hfc as (_ & w & Hw & Hid).
    apply deplete_elem in Hs1 as [Hs1|(s & Hs & Hsw & _ & ->)].
    + apply (Hk o' s1); [by right|done..].
    + exists w. split; [done|]. simpl. congruence.
Qed.

(** X2: on a stock DataFrame, [optimize] returns a plan exactly when
    every stock record that covers some order of the input (same product,
    quantity at least the order's) has its warehouse on a row of
    [warehouses]; otherwise it raises. Records that cover no order may name
    unknown warehouses without harm. *)
Theorem optimize_returns_iff (self : InventoryOptimizer) (t0 t1 : float)
    (ws : list Warehouse) (os : list Order) (inv : loc) (h : heap)
    (rows : list StockRecord) :
  h !! inv = Some (DataFrame rows) ->
  (exists h' res, optimize self t0 t1 ws os inv h = (h', Ok res))
  <-> (forall o s, o ∈ os -> s ∈ rows -> feasible o s -> known ws s).
Proof.
  intros Hinv. rewrite (optimize_rows _ _ _ _ _ _ _ rows Hinv). split.
  - intros (h' & res & Hopt) o s Ho Hs Hf.
    destruct (lookup_warehouse_cases ws s) as [Hk|Hno]; [done|].
    assert (o ∈ sort_values os) as Ho' by by rewrite sort_values_perm.
    destruct (run_rows_missing_warehouse ws o s (sort_values os) Hf Hno Ho'
                rows empty_results Hs) as (rows' & e & Herr).
    rewrite Herr in Hopt. done.
  - intros Hk.
    destruct (run_rows_returns_covering ws (sort_values os) rows empty_results)
      as (rows' & res' & ->); [|by left|simpl; eauto].
    intros o s Ho. apply Hk. by rewrite <- sort_values_perm.
Qed.

End ReturnsExactly.

(** ** Where the entries of the plan come from *)

Section Provenance.

Context {RT : PyRuntime}.

Lemma first_cheapest_made_for (ws : list Warehouse) (o : Order)
    (cands : list StockRecord) (c : StockRecord) (k d : float) :
  first_cheapest ws o cands c k ->
  candidate_distance ws o c = Ok d ->
  (k <? PrimFloat.infinity)%float = true ->
  exists w,
    made_for ws o w (inv_warehouse_id c)
      {| ae_order_id := order_id o; ae_quantity := quantity o;
         ae_cost := k; ae_distance := d |}.
Proof.
  intros (pre & post & _ & Hk & _) Hd Hlt.
  unfold candidate_cost, candidate_distance, candidate_warehouse in *.
  destruct (lookup_warehouse ws (inv_warehouse_id c)) as [w|e] eqn:Ew; [|done].
  simpl in *. exists w. unfold made_for. simpl.
  unfold allocation_cost in Hk. rewrite Hd in Hk. simpl in Hk.
  injection Hk as <-. done.
Qed.

Lemma run_rows_provenance (ws : list Warehouse) (os : list Order) :
  forall rows res rows' res',
    run_rows ws rows res os = (rows', Ok res') ->
    forall wid e,
      e ∈ entries_of (allocation_plan res') wid ->
      e ∈ entries_of (allocation_plan res) wid
      \/ exists o w, o ∈ os
           /\ (wid, product_id o) ∈ stock_key <$> rows
           /\ made_for ws o w wid e.
Proof.
  induction os as [|o os IH]; intros rows res rows' res'; simpl.
  - intros [= <- <-] wid e He. by left.
  - destruct (allocate_rows ws rows res o) as [rows1 [res1|err]] eqn:Estep; [|done].
    intros Hrun wid e He.
    apply allocate_rows_ok in Estep
      as [(_ & -> & ->)|(c & k & d & total & Hfc & Hd & Hlt & _ & -> & ->)].
    + destruct (IH _ _ _ _ Hrun wid e He) as [Hold|(o' & w & Ho' & Hkey & Hm)];
        [by left|].
      right. exists o', w. split; [by right|done].
    + destruct (IH _ _ _ _ Hrun wid e He) as [Hold|(o' & w & Ho' & Hkey & Hm)].
      * simpl in Hold.
        destruct (decide (inv_warehouse_id c = wid)) as [<-|Hne].
        -- rewrite entries_of_append in Hold.
           apply elem_of_app in Hold as [Hold|Hnew]; [by left|].
           apply list_elem_of_singleton in Hnew as ->.
           right. exists o.
           destruct (first_cheapest_made_for _ _ _ _ _ _ Hfc Hd Hlt) as [w Hm].
           exists w. split; [left|]. split; [|done].
           apply first_cheapest_known in Hfc as [Hc _].
           apply list_elem_of_filter in Hc as [[Hp _] Hc].
           apply list_elem_of_fmap. exists c. split; [|done].
           unfold stock_key. by rewrite Hp.
        -- rewrite entries_of_append_ne in Hold by done. by left.
      * right. exists o', w. split; [by right|]. split; [|done].
        by rewrite deplete_keys in Hkey.
Qed.

Lemma run_rows_no_empty_list (ws : list Warehouse) (os : list Order) :
  forall rows res rows' res',
    run_rows ws rows res os = (rows', Ok res') ->
    (forall wid l, allocation_plan res !! wid = Some l -> l <> []) ->
    forall wid l, allocation_plan res' !! wid = Some l -> l <> [].
Proof.
  induction os as [|o os IH]; intros rows res rows' res'; simpl.
  - by intros [= <- <-].
  - destruct (allocate_rows ws rows res o) as [rows1 [res1|err]] eqn:Estep; [|done].
    intros Hrun Hne. apply (IH _ _ _ _ Hrun).
    apply allocate_rows_ok in Estep
      as [(_ & -> & ->)|(c & k & d & total & _ & _ & _ & _ & -> & ->)]; [done|].
    simpl. intros wid l. unfold plan_append.
    destruct (decide (inv_warehouse_id c = wid)) as [<-|Hd].
    + rewrite lookup_insert_eq. intros [= <-]. by destruct (default _ _).
    + rewrite lookup_insert_ne by done. apply Hne.
Qed.

(** X3: in a plan that [optimize] returns, every entry filed under a
    warehouse identifier was made for an order of the input, carries that
    order's identifier and full quantity, and was priced with the first row
    of [warehouses] that has the identifier: the input stock holds a record of
    that warehouse for the order's product, the entry's distance is the
    distance from that row to the order, and its cost, the distance times 10
    plus a tenth of the storage cost, is below infinity. No warehouse is
    filed with an empty list. *)
Theorem plan_provenance (self : InventoryOptimizer) (t0 t1 : float)
    (ws : list Warehouse) (os : list Order) (inv : loc) (h h' : heap)
    (rows : list StockRecord) (res : Results) :
  h !! inv = Some (DataFrame rows) ->
  optimize self t0 t1 ws os inv h = (h', Ok res) ->
  (forall wid e,
     e ∈ entries_of (allocation_plan res) wid ->
     exists o w s,
       o ∈ os /\ w ∈ ws /\ s ∈ rows
       /\ inv_warehouse_id s = wid /\ inv_product_id s = product_id o
       /\ made_for ws o w wid e)
  /\ (forall wid l, allocation_plan res !! wid = Some l -> l <> []).
Proof.
  intros Hinv Hopt.
  apply optimize_ok in Hopt as (rows0 & rows' & res0 & Hinv' & Hrun & _ & ->).
  rewrite Hinv in Hinv'. injection Hinv' as <-. simpl. split.
  - intros wid e He.
    destruct (run_rows_provenance _ _ _ _ _ _ Hrun wid e He)
      as [Hold|(o & w & Ho & Hkey & Hm)].
    + unfold entries_of in Hold. simpl in Hold. rewrite lookup_empty in Hold.
      by apply elem_of_nil in Hold.
    + apply list_elem_of_fmap in Hkey as (s & [= Hw Hp] & Hs).
      exists o, w, s. split; [by rewrite <- sort_values_perm|].
      split; [|done]. destruct Hm as [Hl _].
      by apply lookup_warehouse_ok in Hl as [? _].
  - apply (run_rows_no_empty_list _ _ _ _ _ _ Hrun).
    intros wid l. simpl. by rewrite lookup_empty.
Qed.

End Provenance.

(** ** The total cost and the other fields of the plan *)

Section Totals.

Context {RT : PyRuntime}.

Lemma add_costs_float (a : float) (costs : list float) :
  add_costs (PyFloat a) costs = Ok (PyFloat (foldl PrimFloat.add a costs)).
Proof.
  unfold add_costs. revert a.
  induction costs as [|c costs IH]; intros a; simpl; [done|]. apply IH.
Qed.

Lemma add_costs_zero (costs : list float) :
  add_costs (PyInt 0) costs = Ok (running_total costs).
Proof.
  destruct costs as [|c costs]; [done|].
  unfold running_total. simpl. rewrite <- add_costs_float. done.
Qed.

Lemma add_costs_cons (total total1 : pyval) (c : float) (costs : list float) :
  py_add total (PyFloat c) = Ok total1 ->
  add_costs total (c :: costs) = add_costs total1 costs.
Proof. intros H. unfold add_costs. simpl. by rewrite H. Qed.

Lemma run_rows_total (ws : list Warehouse) (os : list Order) :
  forall rows res rows' res',
    run_rows ws rows res os = (rows', Ok res') ->
    exists es,
      plan_entries (allocation_plan res') ≡ₚ
        plan_entries (allocation_plan res) ++ es
      /\ ae_order_id <$> es `sublist_of` order_id <$> os
      /\ add_costs (total_cost res) (ae_cost <$> es) = Ok (total_cost res').
Proof.
  induction os as [|o os IH]; intros rows res rows' res'; simpl.
  - intros [= <- <-]. exists []. by rewrite app_nil_r.
  - destruct (allocate_rows ws rows res o) as [rows1 [res1|err]] eqn:Estep; [|done].
    intros Hrun. apply IH in Hrun as (es & Hperm & Hsub & Hsum).
    apply allocate_rows_ok in Estep
      as [(_ & -> & ->)|(c & k & d & total & _ & _ & _ & Hadd & -> & ->)].
    + exists es. split; [done|]. split; [by apply sublist_cons|done].
    + simpl in *.
      exists ({| ae_order_id := order_id o; ae_quantity := quantity o;
                 ae_cost := k; ae_distance := d |} :: es).
      split; [|split].
      * rewrite Hperm, plan_entries_append. by rewrite <- Permutation_middle.
      * simpl. by apply sublist_skip.
      * simpl. by rewrite (add_costs_cons _ _ _ _ Hadd).
Qed.

Lemma run_rows_utilization (ws : list Warehouse) (os : list Order) :
  forall rows res rows' res',
    run_rows ws rows res os = (rows', Ok res') ->
    warehouse_utilization res' = warehouse_utilization res.
Proof.
  induction os as [|o os IH]; intros rows res rows' res'; simpl.
  - by intros [= <- <-].
  - destruct (allocate_rows ws rows res o) as [rows1 [res1|err]] eqn:Estep; [|done].
    intros Hrun. rewrite (IH _ _ _ _ Hrun).
    by apply allocate_rows_ok in Estep
      as [(_ & -> & ->)|(c & k & d & total & _ & _ & _ & _ & -> & ->)].
Qed.

(** X4: the total cost of a plan that [optimize] returns is the sum of
    the costs of its entries, added as doubles one after the other in the
    order in which the orders were processed, starting from 0; it is the int
    0 exactly when the plan has no entry. *)
Theorem total_cost_running_sum (self : InventoryOptimizer) (t0 t1 : float)
    (ws : list Warehouse) (os : list Order) (inv : loc) (h h' : heap)
    (res : Results) :
  optimize self t0 t1 ws os inv h = (h', Ok res) ->
  exists es,
    es ≡ₚ plan_entries (allocation_plan res)
    /\ ae_order_id <$> es `sublist_of` order_id <$> sort_values os
    /\ total_cost res = running_total (ae_cost <$> es)
    /\ (total_cost res = PyInt 0 <-> plan_entries (allocation_plan res) = []).
Proof.
  intros Hopt.
  apply optimize_ok in Hopt as (rows & rows' & res0 & _ & Hrun & _ & ->).
  apply run_rows_total in Hrun as (es & Hperm & Hsub & Hsum).
  simpl in *. rewrite plan_entries_empty in Hperm. simpl in Hperm.
  rewrite add_costs_zero in Hsum. injection Hsum as Hsum.
  exists es. split; [done|]. split; [done|]. split; [done|].
  rewrite <- Hsum. split.
  - intros Hz. destruct es as [|e es]; [|done].
    by apply Permutation_nil_r in Hperm.
  - intros Hnil. rewrite Hnil in Hperm. symmetry in Hperm.
    apply Permutation_nil_r in Hperm. by subst es.
Qed.

(** X5: [optimize] never writes to [warehouse_utilization]: in every
    plan it returns that dict is empty, next to the status "Completed" and
    the difference of the two clock readings as the solving time. *)
Theorem plan_fields (self : InventoryOptimizer) (t0 t1 : float)
    (ws : list Warehouse) (os : list Order) (inv : loc) (h h' : heap)
    (res : Results) :
  optimize self t0 t1 ws os inv h = (h', Ok res) ->
  warehouse_utilization res = ∅
  /\ r_status res = "Completed"
  /\ solving_time res = PyFloat (t1 - t0).
Proof.
  intros Hopt.
  apply optimize_ok in Hopt as (rows & rows' & res0 & _ & Hrun & _ & ->).
  simpl. by rewrite (run_rows_utilization _ _ _ _ _ _ Hrun).
Qed.

Lemma running_total_numeric (costs : list float) : numeric (running_total costs).
Proof. by destruct costs. Qed.

(** X6: the summary of a plan that [optimize] returned never takes its
    error path: it holds the rounded total cost and solving time and the
    status "Completed"; and its timestamp is [None] for every such plan,
    because [optimize] sets no [optimization_timestamp]. *)
Theorem summary_of_run (self : InventoryOptimizer) (t0 t1 : float)
    (ws : list Warehouse) (os : list Order) (inv : loc) (h h' : heap)
    (res : Results) (r : loc) (h2 : heap) :
  optimize self t0 t1 ws os inv h = (h', Ok res) ->
  h2 !! r = Some (Dict (results_dict res)) ->
  exists total time,
    py_round (total_cost res) 2 = Ok total
    /\ py_round (PyFloat (t1 - t0)) 2 = Ok time
    /\ get_optimization_summary self r h2 =
         (h2, Ok (<["total_cost" := total]>
                  (<["solving_time" := time]>
                   (<["status" := PyStr "Completed"]>
                    (<["timestamp" := PyNone]> ∅))))).
Proof.
  intros Hopt Hr.
  assert (r_status res = "Completed" /\ solving_time res = PyFloat (t1 - t0)
          /\ numeric (total_cost res)) as (Hst & Htime & Hnum).
  { apply optimize_ok in Hopt as (rows & rows' & res0 & _ & Hrun & _ & ->).
    split; [done|]. split; [done|]. simpl.
    apply run_rows_total in Hrun as (es & _ & _ & Hsum).
    simpl in Hsum. rewrite add_costs_zero in Hsum. injection Hsum as <-.
    apply running_total_numeric. }
  destruct (py_round_numeric _ 2 Hnum) as (total & Hr1 & _).
  assert (numeric (PyFloat (t1 - t0))) as Hnt by done.
  destruct (py_round_numeric _ 2 Hnt) as (time & Hr2 & _).
  exists total, time. split; [done|]. split; [done|].
  unfold get_optimization_summary, try_except_M.
  rewrite (summary_body_dict _ _ _ Hr).
  assert (results_dict res !! "total_cost" = Some (total_cost res)) as -> by done.
  assert (results_dict res !! "solving_time" = Some (solving_time res)) as -> by done.
  assert (results_dict res !! "status" = Some (PyStr (r_status res))) as -> by done.
  assert (results_dict res !! "optimization_timestamp" = None) as -> by done.
  simpl. rewrite Htime, Hst, Hr1, Hr2. done.
Qed.

End Totals.

(** ** Decisions against the stock that was given *)

Section Covered.

Context {RT : PyRuntime}.

Lemma no_more_keys (rows0 rows : list StockRecord) :
  Forall2 no_more rows0 rows -> stock_key <$> rows = stock_key <$> rows0.
Proof.
  induction 1 as [|s0 s rows0 rows [Hk _] _ IH]; [done|].
  rewrite !fmap_cons. by rewrite Hk, IH.
Qed.

Lemma no_more_elem (rows0 rows : list StockRecord) (s : StockRecord) :
  Forall2 no_more rows0 rows -> s ∈ rows ->
  exists s0, s0 ∈ rows0 /\ no_more s0 s.
Proof.
  intros H Hs. apply list_elem_of_lookup in Hs as [i Hi].
  destruct (Forall2_lookup_r _ _ _ _ _ H Hi) as (s0 & Hi0 & Hn).
  exists s0. split; [by eapply list_elem_of_lookup_2|done].
Qed.

Lemma no_more_bound (rows0 rows : list StockRecord) :
  Forall2 no_more rows0 rows ->
  Forall (fun s => current_stock s <= int64_max) rows0 ->
  Forall (fun s => current_stock s <= int64_max) rows.
Proof.
  intros H Hmax. apply Forall_forall. intros s Hs.
  destruct (no_more_elem _ _ _ H Hs) as (s0 & Hs0 & _ & Hle).
  assert (current_stock s0 <= int64_max) by by eapply Forall_forall in Hmax.
  lia.
Qed.

(** One allocation leaves no record with more stock than it had. *)
Lemma deplete_no_more (o : Order) (c : StockRecord) (rows : list StockRecord) :
  NoDup (stock_key <$> rows) ->
  Forall (fun s => current_stock s <= int64_max) rows ->
  c ∈ candidates o rows ->
  0 <= quantity o ->
  Forall2 no_more rows
    (deplete (inv_warehouse_id c) (product_id o) (quantity o) rows).
Proof.
  intros Hnd Hmax Hc Hq.
  apply list_elem_of_filter in Hc as [[Hcp Hcq] Hc].
  unfold deplete. apply Forall2_fmap_r, Forall_Forall2_diag, Forall_forall.
  intros s Hs. unfold compose, no_more. cbv beta.
  assert (current_stock s <= int64_max) as Hsmax
    by by eapply Forall_forall in Hmax.
  destruct (decide (inv_warehouse_id s = inv_warehouse_id c
                    /\ inv_product_id s = product_id o)) as [[Hw Hp]|Hn].
  - assert (s = c) as ->.
    { apply (stock_key_unique rows); [done..|].
      unfold stock_key. congruence. }
    unfold sub_current_stock, stock_key. simpl.
    rewrite wrap64_small by lia. split; [done|]. lia.
  - split; [done|]. lia.
Qed.

Lemma no_more_trans (rows0 rows rows1 : list StockRecord) :
  Forall2 no_more rows0 rows -> Forall2 no_more rows rows1 ->
  Forall2 no_more rows0 rows1.
Proof.
  intros H1 H2. eapply Forall2_trans; [|exact H1|exact H2].
  intros s0 s s1 [Hk1 Hl1] [Hk2 Hl2]. split; [congruence|lia].
Qed.

Lemma run_rows_covered (ws : list Warehouse) (os : list Order)
    (rows0 : list StockRecord) :
  Forall (fun o => 0 <= quantity o) os ->
  NoDup (stock_key <$> rows0) ->
  Forall (fun s => current_stock s <= int64_max) rows0 ->
  forall rows res rows' res',
    Forall2 no_more rows0 rows ->
    run_rows ws rows res os = (rows', Ok res') ->
    (forall o, o ∈ os ->
       (forall s, s ∈ rows0 -> inv_product_id s = product_id o ->
                  current_stock s < quantity o) ->
       insufficient_stock o ∈ unfulfilled_orders res')
    /\ (forall wid e,
          e ∈ entries_of (allocation_plan res') wid ->
          e ∈ entries_of (allocation_plan res) wid
          \/ exists o s, o ∈ os /\ s ∈ rows0
               /\ stock_key s = (wid, product_id o)
               /\ ae_order_id e = order_id o /\ ae_quantity e = quantity o
               /\ quantity o <= current_stock s).
Proof.
  intros Hq Hnd Hmax.
  induction Hq as [|o os Hqo Hq IH]; intros rows res rows' res' Hrel; simpl.
  - intros [= <- <-]. split; [intros o Ho; by apply elem_of_nil in Ho|].
    intros wid e He. by left.
  - destruct (allocate_rows ws rows res o) as [rows1 [res1|err]] eqn:Estep; [|done].
    intros Hrun.
    pose proof (run_rows_in_order _ _ _ _ _ _ Hrun) as [(us & Hus & _) _].
    assert (NoDup (stock_key <$> rows)) as Hnd'
      by by rewrite (no_more_keys _ _ Hrel).
    pose proof (no_more_bound _ _ Hrel Hmax) as Hmax'.
    apply allocate_rows_ok in Estep
      as [(_ & -> & ->)|(c & k & d & total & Hfc & _ & _ & _ & -> & ->)].
    + destruct (IH _ _ _ _ Hrel Hrun) as [IHu IHe]. split.
      * intros o' Ho' Hnever. apply elem_of_cons in Ho' as [->|Ho'];
          [|by apply IHu].
        rewrite Hus. simpl. apply elem_of_app. left. apply elem_of_app.
        right. left.
      * intros wid e He. destruct (IHe wid e He) as [Hold|(o' & s & Ho' & Hrest)];
          [by left|].
        right. exists o', s. split; [by right|done].
    + apply first_cheapest_known in Hfc as [Hc _].
      pose proof (deplete_no_more o c rows Hnd' Hmax' Hc Hqo) as Hstep.
      pose proof (no_more_trans _ _ _ Hrel Hstep) as Hrel1.
      destruct (IH _ _ _ _ Hrel1 Hrun) as [IHu IHe].
      apply list_elem_of_filter in Hc as [[Hcp Hcq] Hc].
      destruct (no_more_elem _ _ _ Hrel Hc) as (s0 & Hs0 & Hk0 & Hle0).
      split.
      * intros o' Ho' Hnever. apply elem_of_cons in Ho' as [->|Ho'];
          [|by apply IHu].
        exfalso. injection Hk0 as Hw0 Hp0.
        assert (current_stock s0 < quantity o)
          by (apply Hnever; [done|congruence]).
        lia.
      * intros wid e He. destruct (IHe wid e He) as [Hold|(o' & s & Ho' & Hrest)].
        -- simpl in Hold.
           destruct (decide (inv_warehouse_id c = wid)) as [<-|Hne].
           ++ rewrite entries_of_append in Hold.
              apply elem_of_app in Hold as [Hold|Hnew]; [by left|].
              apply list_elem_of_singleton in Hnew as ->.
              right. exists o, s0. split; [left|]. split; [done|].
              split; [|simpl; split; [done|split; [done|lia]]].
              rewrite <- Hk0. unfold stock_key. by rewrite Hcp.
           ++ rewrite entries_of_append_ne in Hold by done. by left.
        -- right. exists o', s. split; [by right|done].
Qed.

(** X7: on a stock with one record per warehouse and product that fits
    its int64 column, and orders of non-negative quantity, the decisions of a
    run that returns are sound against the stock that was given: an order
    that no record of its product covered at the start is in the unfulfilled
    list, and every entry of the plan is for an order whose full quantity the
    input record of that warehouse and product covered. *)
Theorem decisions_against_input_stock (self : InventoryOptimizer) (t0 t1 : float)
    (ws : list Warehouse) (os : list Order) (inv : loc) (h h' : heap)
    (rows : list StockRecord) (res : Results) :
  h !! inv = Some (DataFrame rows) ->
  NoDup (stock_key <$> rows) ->
  Forall (fun s => in_int64 (current_stock s)) rows ->
  Forall (fun o => 0 <= quantity o) os ->
  optimize self t0 t1 ws os inv h = (h', Ok res) ->
  (forall o, o ∈ os ->
     (forall s, s ∈ rows -> inv_product_id s = product_id o ->
                current_stock s < quantity o) ->
     insufficient_stock o ∈ unfulfilled_orders res)
  /\ (forall wid e,
        e ∈ entries_of (allocation_plan res) wid ->
        exists o s, o ∈ os /\ s ∈ rows
          /\ inv_warehouse_id s = wid /\ inv_product_id s = product_id o
          /\ ae_order_id e = order_id o /\ ae_quantity e = quantity o
          /\ quantity o <= current_stock s).
Proof.
  intros Hinv Hnd Hrange Hq Hopt.
  apply optimize_ok in Hopt as (rows0 & rows' & res0 & Hinv' & Hrun & _ & ->).
  rewrite Hinv in Hinv'. injection Hinv' as <-.
  assert (Forall (fun o => 0 <= quantity o) (sort_values os)) as Hq'.
  { apply Forall_forall. intros o Ho. rewrite sort_values_perm in Ho.
    by eapply Forall_forall in Hq. }
  assert (Forall (fun s => current_stock s <= int64_max) rows) as Hmax.
  { eapply Forall_impl; [exact Hrange|]. by intros s [_ ?]. }
  assert (Forall2 no_more rows rows) as Hrefl.
  { apply Forall_Forall2_diag, Forall_forall. intros s _. split; [done|lia]. }
  destruct (run_rows_covered ws _ rows Hq' Hnd Hmax _ _ _ _ Hrefl Hrun)
    as [Hu He].
  simpl. split.
  - intros o Ho. apply Hu. by rewrite sort_values_perm.
  - intros wid e Hin. destruct (He wid e Hin) as [Hold|(o & s & Ho & Hs & Hk & Hrest)].
    + unfold entries_of in Hold. simpl in Hold. rewrite lookup_empty in Hold.
      by apply elem_of_nil in Hold.
    + injection Hk as Hw Hp. exists o, s.
      split; [by rewrite <- sort_values_perm|]. done.
Qed.

End Covered.

(** * Properties of the application *)

(** ** What the application draws of a plan *)

Section Shown.

Context {RT : PyRuntime}.











End Shown.

(** ** The login *)

Section Login.

Lemma lstrip_split (s : text) :
  exists pre, s = pre ++ lstrip s /\ Forall (fun c => isspace c = true) pre.
Proof.
  induction s as [|c s (pre & IH & Hpre)]; simpl.
  - exists []. split; [done|]. constructor.
  - destruct (isspace c) eqn:E.
    + exists (c :: pre). split; [by rewrite <- app_comm_cons, <- IH|].
      by constructor.
    + exists []. split; [done|]. constructor.
Qed.

Lemma lstrip_head (s : text) (c : N) (s' : text) :
  lstrip s = c :: s' -> isspace c = false.
Proof.
  induction s as [|c0 s IH]; simpl; [done|].
  destruct (isspace c0) eqn:E; [done|]. by intros [= <- _].
Qed.

Lemma lstrip_nil (s : text) :
  lstrip s = [] <-> Forall (fun c => isspace c = true) s.
Proof.
  split.
  - intros H. destruct (lstrip_split s) as (pre & Hs & Hpre).
    rewrite H, app_nil_r in Hs. by subst.
  - induction 1 as [|c s Hc _ IH]; simpl; [done|]. by rewrite Hc.
Qed.

(** A name strips to nothing exactly when it is made of whitespace. *)
Lemma strip_nil (s : text) :
  strip s = [] <-> Forall (fun c => isspace c = true) s.
Proof.
  unfold strip. split.
  - intros H. apply (f_equal reverse) in H.
    rewrite reverse_involutive in H. simpl in H.
    apply lstrip_nil in H. rewrite Forall_reverse in H.
    destruct (lstrip_split s) as (pre & Hs & Hpre). rewrite Hs.
    apply Forall_app. by split.
  - intros H.
    assert (lstrip s = []) as -> by by apply lstrip_nil.
    done.
Qed.

Lemma blank_or_not (s : text) :
  Forall (fun c => isspace c = true) s
  \/ exists c, c ∈ s /\ isspace c = false.
Proof.
  induction s as [|c s [IH|(c' & Hc' & Hsp)]].
  - left. constructor.
  - destruct (isspace c) eqn:E.
    + left. by constructor.
    + right. exists c. split; [left|done].
  - right. exists c'. split; [by right|done].
Qed.

Lemma login_page_blank (name : text) (enter : bool) (s : SessionState) :
  Forall (fun c => isspace c = true) name -> (login_page name enter s).1 = s.
Proof.
  intros H. unfold login_page. destruct enter; [|done].
  by rewrite (proj2 (strip_nil name) H).
Qed.

Lemma login_page_invariant (name : text) (enter : bool) (s : SessionState) :
  (logged_in s = true -> exists c, c ∈ username s /\ isspace c = false) ->
  logged_in (login_page name enter s).1 = true ->
  exists c, c ∈ username (login_page name enter s).1 /\ isspace c = false.
Proof.
  intros Hinv. unfold login_page. destruct enter; [|done].
  destruct (strip name) as [|c s'] eqn:E; [done|]. simpl. intros _.
  destruct (blank_or_not name) as [Hall|Hnot]; [|done].
  apply strip_nil in Hall. congruence.
Qed.

Lemma script_runs_invariant (inputs : list (text * bool)) :
  forall session,
    (forall s, session = Some s -> logged_in s = true ->
               exists c, c ∈ username s /\ isspace c = false) ->
    forall s, foldl script_run session inputs = Some s ->
      logged_in s = true -> exists c, c ∈ username s /\ isspace c = false.
Proof.
  induction inputs as [|inp inputs IH]; intros session Hinv s; simpl.
  - apply Hinv.
  - apply IH. intros s1. unfold script_run.
    destruct session as [s0|]; simpl.
    + destruct (logged_in s0) eqn:E.
      * intros [= <-]. by apply Hinv.
      * intros [= <-]. apply login_page_invariant. congruence.
    + intros [= <-]. by apply login_page_invariant.
Qed.

(** X10: the login of the application. However the script is run and
    rerun from a new session, a session that is logged in holds a name with a
    character that is not whitespace; a name made of whitespace only (the
    empty name too) never logs in; a name that is accepted is stored as it
    was typed, not stripped; and a session that is logged in stays so under
    the same name, since no page logs out. *)
Theorem login_sessions :
  (forall inputs s,
     foldl script_run None inputs = Some s ->
     logged_in s = true -> exists c, c ∈ username s /\ isspace c = false)
  /\ (forall session name enter,
        Forall (fun c => isspace c = true) name ->
        script_run session (name, enter) = Some (init_session session))
  /\ (forall session name c,
        logged_in (init_session session) = false ->
        c ∈ name -> isspace c = false ->
        script_run session (name, true) =
          Some {| logged_in := true; username := name |})
  /\ (forall s inputs,
        logged_in s = true -> foldl script_run (Some s) inputs = Some s).
Proof.
  split; [|split; [|split]].
  - intros inputs s. by apply script_runs_invariant.
  - intros session name enter Hblank. unfold script_run.
    destruct (logged_in (init_session session)); [done|].
    simpl. by rewrite login_page_blank.
  - intros session name c Hout Hc Hsp. unfold script_run. rewrite Hout.
    simpl. destruct (strip name) as [|c' s'] eqn:E; [|done].
    apply strip_nil in E. eapply Forall_forall in E; [|done]. congruence.
  - intros s inputs Hs. induction inputs as [|inp inputs IH]; [done|].
    simpl. unfold script_run at 2. simpl. by rewrite Hs.
Qed.

End Login.

(** * Further properties of the engine, continued *)

(** ** Units are conserved *)

Section Conservation.

Context {RT : PyRuntime}.

Lemma Z_sum_perm (l1 l2 : list Z) : l1 ≡ₚ l2 -> Z_sum l1 = Z_sum l2.
Proof.
  induction 1 as [|x l1 l2 _ IH|x y l|l1 l2 l3 _ IH1 _ IH2]; simpl; lia.
Qed.

Lemma deplete_absent (wid pid : string) (q : Z) (rows : list StockRecord) :
  (wid, pid) ∉ stock_key <$> rows -> deplete wid pid q rows = rows.
Proof.
  unfold deplete. induction rows as [|r rows IH]; intros Hn; [done|].
  rewrite fmap_cons in Hn. apply not_elem_of_cons in Hn as [Hr Hn].
  rewrite fmap_cons, IH by done.
  rewrite decide_False; [done|].
  intros [Hw Hp]. apply Hr. unfold stock_key. by rewrite Hw, Hp.
Qed.

(** One allocation takes the order's quantity out of the stock. *)
Lemma deplete_sum (o : Order) (c : StockRecord) (rows : list StockRecord) :
  NoDup (stock_key <$> rows) ->
  Forall (fun s => current_stock s <= int64_max) rows ->
  c ∈ candidates o rows ->
  0 <= quantity o ->
  Z_sum (current_stock <$>
           deplete (inv_warehouse_id c) (product_id o) (quantity o) rows)
  = Z_sum (current_stock <$> rows) - quantity o.
Proof.
  intros Hnd Hmax Hc Hq.
  apply list_elem_of_filter in Hc as [[Hcp Hcq] Hc].
  induction rows as [|r rows IH]; [by apply elem_of_nil in Hc|].
  rewrite fmap_cons in Hnd. apply NoDup_cons in Hnd as [Hr Hnd].
  apply Forall_cons in Hmax as [Hrmax Hmax].
  apply elem_of_cons in Hc as [->|Hc].
  - assert (deplete (inv_warehouse_id r) (product_id o) (quantity o) (r :: rows)
            = sub_current_stock (quantity o) r :: rows) as ->.
    { unfold deplete at 1. rewrite fmap_cons. rewrite decide_True by done.
      f_equal. apply deplete_absent. by rewrite <- Hcp. }
    simpl. rewrite wrap64_small by lia. lia.
  - assert (deplete (inv_warehouse_id c) (product_id o) (quantity o) (r :: rows)
            = r :: deplete (inv_warehouse_id c) (product_id o) (quantity o) rows)
      as ->.
    { unfold deplete at 1. rewrite fmap_cons. rewrite decide_False; [done|].
      intros [Hw Hp]. apply Hr. apply list_elem_of_fmap. exists c.
      split; [|done]. unfold stock_key. congruence. }
    rewrite !fmap_cons.
    change (Z_sum (?x :: ?l)) with (x + Z_sum l).
    rewrite IH by done.
    change (Z_sum (?x :: ?l)) with (x + Z_sum l). lia.
Qed.

Lemma run_rows_conserved (ws : list Warehouse) (os : list Order) :
  Forall (fun o => 0 <= quantity o) os ->
  forall rows res rows' res',
    NoDup (stock_key <$> rows) ->
    Forall (fun s => current_stock s <= int64_max) rows ->
    run_rows ws rows res os = (rows', Ok res') ->
    Z_sum (ae_quantity <$> plan_entries (allocation_plan res'))
    = Z_sum (ae_quantity <$> plan_entries (allocation_plan res))
      + (Z_sum (current_stock <$> rows) - Z_sum (current_stock <$> rows')).
Proof.
  induction 1 as [|o os Hqo Hq IH]; intros rows res rows' res' Hnd Hmax; simpl.
  - intros [= <- <-]. lia.
  - destruct (allocate_rows ws rows res o) as [rows1 [res1|err]] eqn:Estep; [|done].
    intros Hrun.
    apply allocate_rows_ok in Estep
      as [(_ & -> & ->)|(c & k & d & total & Hfc & _ & _ & _ & -> & ->)].
    + exact (IH _ _ _ _ Hnd Hmax Hrun).
    + apply first_cheapest_known in Hfc as [Hc _].
      pose proof (deplete_no_more o c rows Hnd Hmax Hc Hqo) as Hstep.
      apply IH in Hrun;
        [|by rewrite deplete_keys|by apply (no_more_bound rows)].
      rewrite Hrun. unfold add_allocation. cbn [allocation_plan].
      rewrite (Z_sum_perm _ _ (fmap_Permutation ae_quantity _ _
                                 (plan_entries_append _ _ _))).
      rewrite fmap_cons. change (Z_sum (?x :: ?l)) with (x + Z_sum l).
      cbn [ae_quantity].
      rewrite (deplete_sum o c rows Hnd Hmax Hc Hqo). lia.
Qed.

Lemma run_rows_quantities (ws : list Warehouse) (os : list Order) :
  forall rows res rows' res',
    run_rows ws rows res os = (rows', Ok res') ->
    Z_sum (ae_quantity <$> plan_entries (allocation_plan res'))
    + Z_sum (uo_quantity <$> unfulfilled_orders res')
    = Z_sum (ae_quantity <$> plan_entries (allocation_plan res))
      + Z_sum (uo_quantity <$> unfulfilled_orders res)
      + Z_sum (quantity <$> os).
Proof.
  induction os as [|o os IH]; intros rows res rows' res'; simpl.
  - intros [= <- <-]. lia.
  - destruct (allocate_rows ws rows res o) as [rows1 [res1|err]] eqn:Estep; [|done].
    intros Hrun. apply IH in Hrun. rewrite Hrun.
    apply allocate_rows_ok in Estep
      as [(_ & -> & ->)|(c & k & d & total & _ & _ & _ & _ & -> & ->)].
    + unfold add_unfulfilled. cbn [allocation_plan unfulfilled_orders].
      rewrite fmap_app, Z_sum_app, !fmap_cons.
      change (Z_sum (?x :: ?l)) with (x + Z_sum l).
      change (Z_sum (uo_quantity <$> [])) with 0.
      cbn [uo_quantity insufficient_stock].
      change (list_fmap Order Z quantity os) with (quantity <$> os). lia.
    + unfold add_allocation. cbn [allocation_plan unfulfilled_orders].
      rewrite (Z_sum_perm _ _ (fmap_Permutation ae_quantity _ _
                                 (plan_entries_append _ _ _))).
      rewrite !fmap_cons. change (Z_sum (?x :: ?l)) with (x + Z_sum l).
      cbn [ae_quantity].
      change (list_fmap Order Z quantity os) with (quantity <$> os). lia.
Qed.

(** X11: units are conserved. On a stock with one record per warehouse
    and product that fits its int64 column, and orders of non-negative
    quantity, what a run that returns takes out of the working copy is what
    the plan allocates, which is what the orders ask for less what the
    unfulfilled list holds. *)
Theorem units_conserved (self : InventoryOptimizer) (t0 t1 : float)
    (ws : list Warehouse) (os : list Order) (inv : loc) (h h' : heap)
    (rows : list StockRecord) (res : Results) :
  h !! inv = Some (DataFrame rows) ->
  NoDup (stock_key <$> rows) ->
  Forall (fun s => in_int64 (current_stock s)) rows ->
  Forall (fun o => 0 <= quantity o) os ->
  optimize self t0 t1 ws os inv h = (h', Ok res) ->
  exists rows',
    h' !! fresh (dom h) = Some (DataFrame rows')
    /\ Z_sum (current_stock <$> rows) - Z_sum (current_stock <$> rows')
       = Z_sum (ae_quantity <$> plan_entries (allocation_plan res))
    /\ Z_sum (ae_quantity <$> plan_entries (allocation_plan res))
       = Z_sum (quantity <$> os)
         - Z_sum (uo_quantity <$> unfulfilled_orders res).
Proof.
  intros Hinv Hnd Hrange Hq Hopt.
  apply optimize_ok in Hopt as (rows0 & rows' & res0 & Hinv' & Hrun & -> & ->).
  rewrite Hinv in Hinv'. injection Hinv' as <-.
  exists rows'. split; [apply lookup_insert_eq|]. simpl.
  pose proof (run_rows_quantities _ _ _ _ _ _ Hrun) as Hqs.
  assert (Forall (fun o => 0 <= quantity o) (sort_values os)) as Hq'.
  { apply Forall_forall. intros o Ho. rewrite sort_values_perm in Ho.
    by eapply Forall_forall in Hq. }
  assert (Forall (fun s => current_stock s <= int64_max) rows) as Hmax.
  { eapply Forall_impl; [exact Hrange|]. by intros s [_ ?]. }
  pose proof (run_rows_conserved ws _ Hq' _ _ _ _ Hnd Hmax Hrun) as Hcons.
  cbn [allocation_plan unfulfilled_orders empty_results] in Hqs, Hcons.
  rewrite plan_entries_empty in Hqs, Hcons.
  rewrite (Z_sum_perm _ _ (fmap_Permutation quantity _ _ (sort_values_perm os)))
    in Hqs.
  change (Z_sum (ae_quantity <$> [])) with 0 in Hqs, Hcons.
  change (Z_sum (uo_quantity <$> [])) with 0 in Hqs.
  lia.
Qed.

End Conservation.

(** ** The row order of the inputs *)

Section RowOrder.

Context {RT : PyRuntime}.

Lemma precedes_both_ways (a b : Order) :
  precedes a b -> precedes b a -> ties_with a b.
Proof.
  unfold precedes, ties_with. intros [H1|[E1 H1]] [H2|[E2 H2]].
  - rewrite String.compare_antisym, H2 in H1. done.
  - rewrite E2, StringOrder.compare_refl in H1. done.
  - rewrite E1, StringOrder.compare_refl in H2. done.
  - split; [done|lia].
Qed.

(** Two sorted arrangements of the same orders are the same list when no
    two different orders tie on both keys. *)
Lemma sorted_perm_unique (l1 : list Order) :
  forall l2,
    StronglySorted precedes l1 -> StronglySorted precedes l2 -> l1 ≡ₚ l2 ->
    (forall a b, a ∈ l1 -> b ∈ l1 -> ties_with a b -> a = b) ->
    l1 = l2.
Proof.
  induction l1 as [|a l1 IH]; intros l2 Hs1 Hs2 Hperm Hties.
  - by apply Permutation_nil_l in Hperm.
  - destruct l2 as [|b l2]; [by apply Permutation_nil_r in Hperm|].
    apply StronglySorted_inv in Hs1 as [Hs1 Ha].
    apply StronglySorted_inv in Hs2 as [Hs2 Hb].
    assert (a = b) as <-.
    { assert (a ∈ b :: l2) as Hain by (rewrite <- Hperm; left).
      assert (b ∈ a :: l1) as Hbin by (rewrite Hperm; left).
      apply elem_of_cons in Hain as [->|Hain]; [done|].
      apply elem_of_cons in Hbin as [->|Hbin]; [done|].
      symmetry. apply Hties; [by right|left|].
      apply precedes_both_ways.
      - by eapply Forall_forall in Hb.
      - by eapply Forall_forall in Ha. }
    f_equal. apply Permutation_cons_inv in Hperm.
    apply IH; [done..|].
    intros x y Hx Hy. apply Hties; by right.
Qed.

Lemma sort_values_perm_eq (os os' : list Order) :
  os' ≡ₚ os ->
  (forall a b, a ∈ os -> b ∈ os -> ties_with a b -> a = b) ->
  sort_values os' = sort_values os.
Proof.
  intros Hperm Hties. apply sorted_perm_unique.
  - apply sort_values_sorted.
  - apply sort_values_sorted.
  - by rewrite !sort_values_perm.
  - intros a b Ha Hb. rewrite sort_values_perm, Hperm in Ha, Hb.
    by apply Hties.
Qed.

Lemma optimize_sorted_ext (self : InventoryOptimizer) (t0 t1 : float)
    (ws : list Warehouse) (os os' : list Order) (inv : loc) (h : heap) :
  sort_values os' = sort_values os ->
  optimize self t0 t1 ws os' inv h = optimize self t0 t1 ws os inv h.
Proof.
  intros Hsort.
  destruct (optimize_cases self t0 t1 ws os inv h) as [(rows & Hinv & ->)|[Hinv ->]].
  - by rewrite (optimize_rows _ _ _ _ _ _ _ rows Hinv), Hsort.
  - by apply optimize_no_dataframe.
Qed.

(** X12: the outcome of [optimize] does not depend on the row order of
    the orders, as long as no two different orders have both the same status
    and the same quantity: any rearrangement of such orders gives the same
    store and the same plan or error. *)
Theorem orders_row_order (self : InventoryOptimizer) (t0 t1 : float)
    (ws : list Warehouse) (os os' : list Order) (inv : loc) (h : heap) :
  os' ≡ₚ os ->
  (forall a b, a ∈ os -> b ∈ os ->
               status a = status b -> quantity a = quantity b -> a = b) ->
  optimize self t0 t1 ws os' inv h = optimize self t0 t1 ws os inv h.
Proof.
  intros Hperm Hties. apply optimize_sorted_ext, sort_values_perm_eq; [done|].
  intros a b Ha Hb [Hs Hq]. symmetry. by apply Hties.
Qed.

Lemma lookup_warehouse_perm (ws ws' : list Warehouse) (wid : string) :
  ws' ≡ₚ ws -> NoDup (warehouse_id <$> ws) ->
  lookup_warehouse ws' wid = lookup_warehouse ws wid.
Proof.
  intros Hperm Hnd. unfold lookup_warehouse.
  assert (filter (fun w => warehouse_id w = wid) ws'
          ≡ₚ filter (fun w => warehouse_id w = wid) ws) as Hf
    by by rewrite Hperm.
  assert (forall a b l, filter (fun w => warehouse_id w = wid) ws <> a :: b :: l)
    as Hshort.
  { intros a b l E. clear Hf Hperm ws'.
    induction ws as [|w ws IH] in a, b, l, E, Hnd |- *; [done|].
    rewrite fmap_cons in Hnd. apply NoDup_cons in Hnd as [Hw Hnd].
    rewrite filter_cons in E. case_decide as Hid.
    - injection E as <- E. apply Hw.
      assert (b ∈ filter (fun w => warehouse_id w = wid) ws) as Hb
        by (rewrite E; left).
      apply list_elem_of_filter in Hb as [Hbid Hb].
      rewrite Hid, <- Hbid. by apply list_elem_of_fmap_2.
    - by apply (IH Hnd a b l). }
  destruct (filter (fun w => warehouse_id w = wid) ws) as [|a [|b l]] eqn:E.
  - by apply Permutation_nil_r in Hf as ->.
  - by apply Permutation_singleton_r in Hf as ->.
  - by destruct (Hshort a b l).
Qed.

Lemma for_rows_ext (ws ws' : list Warehouse) (o : Order)
    (rows : list StockRecord) :
  (forall wid, lookup_warehouse ws' wid = lookup_warehouse ws wid) ->
  forall b, for_rows ws' o b rows = for_rows ws o b rows.
Proof.
  intros Hl. induction rows as [|s rows IH]; intros b; simpl; [done|].
  unfold consider. rewrite Hl.
  destruct (decide _); simpl; [|apply IH].
  destruct (lookup_warehouse ws (inv_warehouse_id s)) as [w|e]; simpl; [|done].
  destruct (allocation_cost w o) as [k|e]; simpl; [|done].
  destruct (_ <? _)%float; simpl; [|apply IH].
  destruct (calculate_distance w o); simpl; [apply IH|done].
Qed.

Lemma run_rows_ext (ws ws' : list Warehouse) (os : list Order) :
  (forall wid, lookup_warehouse ws' wid = lookup_warehouse ws wid) ->
  forall rows res, run_rows ws' rows res os = run_rows ws rows res os.
Proof.
  intros Hl. induction os as [|o os IH]; intros rows res; simpl; [done|].
  unfold allocate_rows. rewrite (for_rows_ext ws ws' o _ Hl).
  destruct (for_rows ws o no_allocation _) as [best|e]; [|done].
  destruct (ba_warehouse_id best); [|apply IH].
  destruct (py_add _ _); simpl; [apply IH|done].
Qed.

(** X13: the outcome of [optimize] does not depend on the row order of
    the warehouses when their identifiers are unique: any rearrangement of
    the rows gives the same store and the same plan or error. *)
Theorem warehouses_row_order (self : InventoryOptimizer) (t0 t1 : float)
    (ws ws' : list Warehouse) (os : list Order) (inv : loc) (h : heap) :
  ws' ≡ₚ ws -> NoDup (warehouse_id <$> ws) ->
  optimize self t0 t1 ws' os inv h = optimize self t0 t1 ws os inv h.
Proof.
  intros Hperm Hnd.
  destruct (optimize_cases self t0 t1 ws os inv h) as [(rows & Hinv & ->)|[Hinv ->]].
  - rewrite (optimize_rows _ _ _ _ _ _ _ rows Hinv).
    rewrite (run_rows_ext ws ws'); [done|].
    intros wid. by apply lookup_warehouse_perm.
  - by apply optimize_no_dataframe.
Qed.

End RowOrder.

(** ** Stock of products that nobody orders *)

Section Requested.

Context {RT : PyRuntime}.

Lemma filter_requested_product (all_os : list Order) (o : Order)
    (rows : list StockRecord) :
  o ∈ all_os ->
  filter (fun s => inv_product_id s = product_id o) (filter (requested all_os) rows)
  = filter (fun s => inv_product_id s = product_id o) rows.
Proof.
  intros Ho. induction rows as [|s rows IH]; [done|].
  rewrite (filter_cons (requested all_os)).
  destruct (decide (requested all_os s)) as [Hr|Hr].
  - rewrite !filter_cons, IH. done.
  - rewrite IH, filter_cons. rewrite decide_False; [done|].
    intros Hp. apply Hr. unfold requested. rewrite Hp.
    by apply list_elem_of_fmap_2.
Qed.

Lemma deplete_filter_requested (all_os : list Order) (wid pid : string) (q : Z)
    (rows : list StockRecord) :
  filter (requested all_os) (deplete wid pid q rows)
  = deplete wid pid q (filter (requested all_os) rows).
Proof.
  unfold deplete. induction rows as [|s rows IH]; [done|].
  rewrite fmap_cons, !filter_cons, IH.
  assert (requested all_os
            (if decide (inv_warehouse_id s = wid /\ inv_product_id s = pid)
             then sub_current_stock q s else s)
          <-> requested all_os s) as Hiff by by case_decide.
  destruct (decide (requested all_os s)) as [Hr|Hr].
  - rewrite decide_True by by apply Hiff. by rewrite fmap_cons.
  - rewrite decide_False; [done|]. intros H. by apply Hr, Hiff.
Qed.

Lemma run_rows_requested (ws : list Warehouse) (all_os os : list Order) :
  (forall o, o ∈ os -> o ∈ all_os) ->
  forall rows res,
    run_rows ws (filter (requested all_os) rows) res os
    = (filter (requested all_os) (run_rows ws rows res os).1,
       (run_rows ws rows res os).2).
Proof.
  induction os as [|o os IH]; intros Hsub rows res; simpl; [done|].
  unfold allocate_rows.
  rewrite filter_requested_product by (apply Hsub; left).
  destruct (for_rows ws o no_allocation _) as [best|e]; [|done].
  assert (forall o', o' ∈ os -> o' ∈ all_os) as Hsub'
    by (intros o' Ho'; apply Hsub; by right).
  destruct (ba_warehouse_id best) as [wid|]; [|by apply IH].
  destruct (py_add _ _) as [total|e]; simpl.
  - rewrite <- deplete_filter_requested. by apply IH.
  - by rewrite deplete_filter_requested.
Qed.

(** X14: stock records of products that no order requests have no part
    in the outcome: a run on the stock without them returns the same plan,
    unfulfilled list and totals, or raises the same error. *)
Theorem unrequested_stock_irrelevant (self : InventoryOptimizer) (t0 t1 : float)
    (ws : list Warehouse) (os : list Order) (inv inv' : loc) (h hf : heap)
    (rows : list StockRecord) :
  h !! inv = Some (DataFrame rows) ->
  hf !! inv' = Some (DataFrame (filter (requested os) rows)) ->
  (optimize self t0 t1 ws os inv' hf).2 = (optimize self t0 t1 ws os inv h).2.
Proof.
  intros Hinv Hinv'.
  rewrite (optimize_rows _ _ _ _ _ _ _ _ Hinv),
    (optimize_rows _ _ _ _ _ _ _ _ Hinv'). simpl.
  rewrite (run_rows_requested ws os (sort_values os)); [done|].
  intros o. by rewrite sort_values_perm.
Qed.

End Requested.

(** * The properties on the fixtures *)

Section MoreInstances.

Import Fixtures Runs.

Local Existing Instance origin_runtime.

(** [optimize_returns_iff] on two orders and two known warehouses. *)
Lemma optimize_returns_iff_witness :
  (exists h' res,
     optimize init 0 1 [W1; W2] [O2; O1] 1%positive (store [S1; S2])
     = (h', Ok res))
  <-> (forall o s, o ∈ [O2; O1] -> s ∈ [S1; S2] -> feasible o s ->
                   known [W1; W2] s).
Proof.
  apply (optimize_returns_iff init 0 1 [W1; W2] [O2; O1] 1%positive
           (store [S1; S2]) [S1; S2]).
  reflexivity.
Defined.

(** [plan_provenance] on the same run. *)
Lemma plan_provenance_witness :
  (forall wid e,
     e ∈ entries_of (allocation_plan (returned two_orders.2)) wid ->
     exists o w s,
       o ∈ [O2; O1] /\ w ∈ [W1; W2] /\ s ∈ [S1; S2]
       /\ inv_warehouse_id s = wid /\ inv_product_id s = product_id o
       /\ made_for [W1; W2] o w wid e)
  /\ (forall wid l,
        allocation_plan (returned two_orders.2) !! wid = Some l -> l <> []).
Proof.
  apply (plan_provenance init 0 1 [W1; W2] [O2; O1] 1%positive
           (store [S1; S2]) two_orders.1 [S1; S2] (returned two_orders.2)).
  - reflexivity.
  - vm_compute. reflexivity.
Defined.

(** [total_cost_running_sum] on the same run. *)
Lemma total_cost_running_sum_witness :
  exists es,
    es ≡ₚ plan_entries (allocation_plan (returned two_orders.2))
    /\ ae_order_id <$> es `sublist_of` order_id <$> sort_values [O2; O1]
    /\ total_cost (returned two_orders.2) = running_total (ae_cost <$> es)
    /\ (total_cost (returned two_orders.2) = PyInt 0
        <-> plan_entries (allocation_plan (returned two_orders.2)) = []).
Proof.
  apply (total_cost_running_sum init 0 1 [W1; W2] [O2; O1] 1%positive
           (store [S1; S2]) two_orders.1 (returned two_orders.2)).
  vm_compute. reflexivity.
Defined.

(** [plan_fields] on a run that leaves an order unfulfilled. *)
Lemma plan_fields_witness :
  warehouse_utilization (returned short_stock.2) = ∅
  /\ r_status (returned short_stock.2) = "Completed"
  /\ solving_time (returned short_stock.2) = PyFloat (1 - 0).
Proof.
  apply (plan_fields init 0 1 [W1; W2] [O2; O1] 1%positive
           (store [S1]) short_stock.1 (returned short_stock.2)).
  vm_compute. reflexivity.
Defined.

(** [summary_of_run] on the plan of two orders, stored as a dict. *)
Lemma summary_of_run_witness :
  exists total time,
    py_round (total_cost (returned two_orders.2)) 2 = Ok total
    /\ py_round (PyFloat (1 - 0)) 2 = Ok time
    /\ get_optimization_summary init 1%positive
         (dict_store (results_dict (returned two_orders.2))) =
         (dict_store (results_dict (returned two_orders.2)),
          Ok (<["total_cost" := total]>
              (<["solving_time" := time]>
               (<["status" := PyStr "Completed"]>
                (<["timestamp" := PyNone]> ∅))))).
Proof.
  apply (summary_of_run init 0 1 [W1; W2] [O2; O1] 1%positive
           (store [S1; S2]) two_orders.1 (returned two_orders.2)).
  - vm_compute. reflexivity.
  - reflexivity.
Defined.

(** [decisions_against_input_stock] on two orders of which the stock
    covers one. *)
Lemma decisions_against_input_stock_witness :
  (forall o, o ∈ [O2; O1] ->
     (forall s, s ∈ [S1] -> inv_product_id s = product_id o ->
                current_stock s < quantity o) ->
     insufficient_stock o ∈ unfulfilled_orders (returned short_stock.2))
  /\ (forall wid e,
        e ∈ entries_of (allocation_plan (returned short_stock.2)) wid ->
        exists o s, o ∈ [O2; O1] /\ s ∈ [S1]
          /\ inv_warehouse_id s = wid /\ inv_product_id s = product_id o
          /\ ae_order_id e = order_id o /\ ae_quantity e = quantity o
          /\ quantity o <= current_stock s).
Proof.
  apply (decisions_against_input_stock init 0 1 [W1; W2] [O2; O1] 1%positive
           (store [S1]) short_stock.1 [S1] (returned short_stock.2)).
  - reflexivity.
  - compute_done.
  - compute_done.
  - compute_done.
  - vm_compute. reflexivity.
Defined.



(** [login_sessions] on a blank name and on the name " ada". *)
Lemma login_sessions_witness :
  script_run None ([32; 9]%N, true) = Some (init_session None)
  /\ script_run None ([32; 97; 100; 97]%N, true) =
       Some {| logged_in := true; username := [32; 97; 100; 97]%N |}.
Proof.
  destruct login_sessions as (_ & Hblank & Hname & _).
  split.
  - apply Hblank. repeat constructor.
  - apply (Hname None _ 97%N); [reflexivity| |reflexivity].
    apply list_elem_of_further, list_elem_of_here.
Defined.

(** [units_conserved] on two orders of which the stock covers one. *)
Lemma units_conserved_witness :
  exists rows',
    short_stock.1 !! fresh (dom (store [S1])) = Some (DataFrame rows')
    /\ Z_sum (current_stock <$> [S1]) - Z_sum (current_stock <$> rows')
       = Z_sum (ae_quantity <$>
                  plan_entries (allocation_plan (returned short_stock.2)))
    /\ Z_sum (ae_quantity <$>
                plan_entries (allocation_plan (returned short_stock.2)))
       = Z_sum (quantity <$> [O2; O1])
         - Z_sum (uo_quantity <$> unfulfilled_orders (returned short_stock.2)).
Proof.
  apply (units_conserved init 0 1 [W1; W2] [O2; O1] 1%positive
           (store [S1]) short_stock.1 [S1] (returned short_stock.2)).
  - reflexivity.
  - compute_done.
  - compute_done.
  - compute_done.
  - vm_compute. reflexivity.
Defined.

(** [orders_row_order] on two orders of different quantities. *)
Lemma orders_row_order_witness :
  optimize init 0 1 [W1; W2] [O1; O2] 1%positive (store [S1; S2])
  = optimize init 0 1 [W1; W2] [O2; O1] 1%positive (store [S1; S2]).
Proof.
  apply (orders_row_order init 0 1 [W1; W2] [O2; O1] [O1; O2]).
  - apply Permutation_swap.
  - intros a b Ha Hb _ Hq.
    apply elem_of_cons in Ha as [->|Ha];
      [|apply list_elem_of_singleton in Ha as ->];
      (apply elem_of_cons in Hb as [->|Hb];
        [|apply list_elem_of_singleton in Hb as ->]);
      first [reflexivity | discriminate Hq].
Defined.

(** [warehouses_row_order] on two warehouses. *)
Lemma warehouses_row_order_witness :
  optimize init 0 1 [W2; W1] [O2; O1] 1%positive (store [S1; S2])
  = optimize init 0 1 [W1; W2] [O2; O1] 1%positive (store [S1; S2]).
Proof.
  apply (warehouses_row_order init 0 1 [W1; W2] [W2; W1]).
  - apply Permutation_swap.
  - compute_done.
Defined.

(** [unrequested_stock_irrelevant] on a stock with a record of a product
    that is not ordered, held by a warehouse that is not known. *)
Lemma unrequested_stock_irrelevant_witness :
  (optimize init 0 1 [W1] [O1] 1%positive (store [S1])).2
  = (optimize init 0 1 [W1] [O1] 1%positive
       (store [S1; {| inv_warehouse_id := "W9"; inv_product_id := "P2";
                      current_stock := 7 |}])).2.
Proof.
  apply (unrequested_stock_irrelevant init 0 1 [W1] [O1] 1%positive 1%positive
           (store [S1; {| inv_warehouse_id := "W9"; inv_product_id := "P2";
                          current_stock := 7 |}])
           (store [S1])
           [S1; {| inv_warehouse_id := "W9"; inv_product_id := "P2";
                   current_stock := 7 |}]).
  - reflexivity.
  - reflexivity.
Defined.

End MoreInstances.
